(** * Command execution engines of the multi-UAV simulation

    A shallow embedding of [src/CommandExecEngine.cc]: the six command
    execution engines (Waypoint, Takeoff, HoldPosition, Charge, Exchange,
    Idle), their lifecycle methods and their predictive queries, followed by
    the properties the specification states about them.

    Numbers.  A C++ [double] is modelled by [double] below: an exact rational,
    one of the two infinities, or NaN.  Arithmetic and comparisons follow the
    IEEE-754 rules for the special values (division by zero, comparisons with
    NaN); rounding, overflow and the sign of zero are abstracted away.
    Where the source stores a [double] in a [float], the value is rounded to
    single precision ([toFloat]).
    [simtime_t] is OMNeT++'s fixed-point time: an exact rational. *)

From Stdlib Require Import ZArith QArith Qabs Qround Bool List String Lia Lqa.
Import ListNotations.

Local Open Scope Q_scope.

(** ** Failures

    [throw cRuntimeError(...)] and a failing [ASSERT] both abort the call
    path; dereferencing a null pointer has no defined behaviour and is kept
    apart. *)

Inductive Failure : Type :=
| cRuntimeError (msg : string)
| AssertionFailed (condition : string)
| NullPointer.

Inductive Result (A : Type) : Type :=
| Ok (a : A)
| Fail (f : Failure).

Arguments Ok {A} a.
Arguments Fail {A} f.

Definition bind {A B : Type} (r : Result A) (k : A -> Result B) : Result B :=
  match r with
  | Ok a => k a
  | Fail f => Fail f
  end.

Notation "x <- r ;; k" := (bind r (fun x => k))
  (at level 61, r at next level, right associativity).
Notation "' p <- r ;; k" := (bind r (fun x => match x with p => k end))
  (at level 61, p pattern, r at next level, right associativity).

Definition ASSERT (condition : bool) (text : string) : Result unit :=
  if condition then Ok tt else Fail (AssertionFailed text).

(** ** The [double] type *)

Module Double.

Inductive double : Type :=
| DFin (q : Q)
| DInf (negative : bool)
| DNaN.

Definition Qltb (a b : Q) : bool :=
  match a ?= b with Lt => true | _ => false end.

Definition ofZ (n : Z) : double := DFin (inject_Z n).

Definition opp (a : double) : double :=
  match a with
  | DFin q => DFin (- q)
  | DInf s => DInf (negb s)
  | DNaN => DNaN
  end.

Definition add (a b : double) : double :=
  match a, b with
  | DNaN, _ | _, DNaN => DNaN
  | DFin p, DFin q => DFin (p + q)
  | DFin _, DInf s | DInf s, DFin _ => DInf s
  | DInf s, DInf t => if Bool.eqb s t then DInf s else DNaN
  end.

Definition sub (a b : double) : double := add a (opp b).

Definition mul (a b : double) : double :=
  match a, b with
  | DNaN, _ | _, DNaN => DNaN
  | DFin p, DFin q => DFin (p * q)
  | DFin p, DInf s | DInf s, DFin p =>
      if Qeq_bool p 0 then DNaN else DInf (xorb s (Qltb p 0))
  | DInf s, DInf t => DInf (xorb s t)
  end.

Definition div (a b : double) : double :=
  match a, b with
  | DNaN, _ | _, DNaN => DNaN
  | DFin p, DFin q =>
      if Qeq_bool q 0
      then (if Qeq_bool p 0 then DNaN else DInf (Qltb p 0))
      else DFin (p / q)
  | DFin _, DInf _ => DFin 0
  | DInf s, DFin q => DInf (xorb s (Qltb q 0))
  | DInf _, DInf _ => DNaN
  end.

Definition fabs (a : double) : double :=
  match a with
  | DFin q => DFin (Qabs q)
  | DInf _ => DInf false
  | DNaN => DNaN
  end.

(** [a < b], [a <= b] and [a == b]; every comparison with NaN is false. *)
Definition ltb (a b : double) : bool :=
  match a, b with
  | DNaN, _ | _, DNaN => false
  | DFin p, DFin q => Qltb p q
  | DFin _, DInf s => negb s
  | DInf s, DFin _ => s
  | DInf s, DInf t => s && negb t
  end.

Definition leb (a b : double) : bool :=
  match a, b with
  | DNaN, _ | _, DNaN => false
  | DFin p, DFin q => Qle_bool p q
  | DFin _, DInf s => negb s
  | DInf s, DFin _ => s
  | DInf s, DInf t => s || negb t
  end.

Definition eqb (a b : double) : bool :=
  match a, b with
  | DFin p, DFin q => Qeq_bool p q
  | DInf s, DInf t => Bool.eqb s t
  | _, _ => false
  end.

Definition gtb (a b : double) : bool := ltb b a.
Definition geb (a b : double) : bool := leb b a.

(** Two doubles denote the same number. *)
Definition same (a b : double) : Prop :=
  match a, b with
  | DFin p, DFin q => p == q
  | DInf s, DInf t => s = t
  | DNaN, DNaN => True
  | _, _ => False
  end.

Definition isFinite (a : double) : bool :=
  match a with DFin _ => true | _ => false end.

End Double.
Import Double.

Declare Scope double_scope.
Delimit Scope double_scope with D.
Bind Scope double_scope with double.
Infix "+" := add : double_scope.
Infix "-" := sub : double_scope.
Infix "*" := mul : double_scope.
Infix "/" := div : double_scope.
Infix "<?" := ltb : double_scope.
Infix "<=?" := leb : double_scope.
Infix ">?" := gtb : double_scope.
Infix ">=?" := geb : double_scope.
Infix "==?" := eqb (at level 70) : double_scope.
Notation "- x" := (opp x) : double_scope.

Coercion DFin : Q >-> double.

(** The literals of the source. *)
Definition eps : double := DFin (1 # 10000000000).               (* 1.e-10 *)
Definition M_PI : double := DFin (314159265358979323846 # 100000000000000000000).

(** ** The [float] type

    A [float] is a [double] that single precision can hold.  Storing a
    [double] in a [float] rounds it to the nearest such value, ties to the
    even significand: 24 significant bits, the smallest step 2^-149, and
    infinity from 2^128 upwards. *)

(** The integer part of the binary logarithm of [n / d]. *)
Definition log2_floor (n d : positive) : Z :=
  let k := (Z.log2 (Zpos n) - Z.log2 (Zpos d))%Z in
  if (Z.shiftl (Zpos d) (Z.max 0 k) <=? Z.shiftl (Zpos n) (Z.max 0 (- k)))%Z
  then k else (k - 1)%Z.

(** [x / y] rounded to the nearest integer, ties to even. *)
Definition round_half_even (x y : Z) : Z :=
  let fl := (x / y)%Z in
  match (2 * (x mod y) ?= y)%Z with
  | Lt => fl
  | Gt => (fl + 1)%Z
  | Eq => if Z.even fl then fl else (fl + 1)%Z
  end.

(** The [float] nearest to the positive rational [n / d]. *)
Definition nearest_float (n d : positive) : double :=
  let ulp := Z.max (log2_floor n d - 23) (-149) in
  let m := round_half_even (Z.shiftl (Zpos n) (Z.max 0 (- ulp)))
                           (Z.shiftl (Zpos d) (Z.max 0 ulp)) in
  let value := Qred (Qmake (m * 2 ^ Z.max 0 ulp) (Z.to_pos (2 ^ Z.max 0 (- ulp)))) in
  if Qle_bool (inject_Z (2 ^ 128)) value then DInf false else DFin value.

(** The conversion from [double] to [float]. *)
Definition toFloat (a : double) : double :=
  match a with
  | DFin q =>
      match Qnum q with
      | Z0 => DFin 0
      | Zpos n => nearest_float n (Qden q)
      | Zneg n => opp (nearest_float n (Qden q))
      end
  | _ => a
  end.

(** ** Data model *)

(** [simtime_t]. *)
Definition simtime : Type := Q.

(** [SimTime + double]: the double is converted to [simtime_t] first, which
    OMNeT++ refuses for a value that is not a finite number. *)
Definition SimTime_plus (t : simtime) (d : double) : Result simtime :=
  match d with
  | DFin q => Ok (t + q)
  | _ => Fail (cRuntimeError "simtime_t: value out of range")
  end.

(** [SimTime::dbl()]. *)
Definition dbl (t : simtime) : double := DFin t.

(** 32-bit [int] arithmetic: the result of an operation wraps around. *)
Definition int_wrap (n : Z) : Z :=
  ((n + 2147483648) mod 4294967296 - 2147483648)%Z.

(** *** Commands (directives) *)

Definition NodeId : Type := nat.

Record ChargingNode : Type := mkChargingNode {
  cn_id : NodeId;
  cn_getX : double;
  cn_getY : double;
  cn_getZ : double
}.

Record WaypointCommand : Type := mkWaypointCommand {
  wpc_getX : double;
  wpc_getY : double;
  wpc_getZ : double
}.

Record TakeoffCommand : Type := mkTakeoffCommand {
  tkc_getZ : double
}.

Record HoldPositionCommand : Type := mkHoldPositionCommand {
  hpc_getX : double;
  hpc_getY : double;
  hpc_getZ : double;
  hpc_getHoldSeconds : double
}.

Record ChargeCommand : Type := mkChargeCommand {
  chc_getChargingNode : ChargingNode
}.

Record ExchangeCommand : Type := mkExchangeCommand {
  exc_getOtherNode : option NodeId;
  exc_isRechargeRequested : bool
}.

Definition exc_isOtherNodeKnown (c : ExchangeCommand) : bool :=
  match exc_getOtherNode c with Some _ => true | None => false end.

Record IdleCommand : Type := mkIdleCommand { }.

(** *** Engines *)

Inductive CeeType : Type :=
| WAYPOINT | TAKEOFF | HOLDPOSITION | CHARGE | EXCHANGE | IDLE.

(** Modelled from the spec: the members of the base class
    [CommandExecEngine], whose declaration ([CommandExecEngine.h]) is not
    among the sources: origin and target coordinates, derived kinematics,
    consumption rate, execution-start time and the three bookkeeping flags
    (completed, part-of-mission, replacement-needed). *)
Record CEEBase : Type := mkCEEBase {
  x0 : double; y0 : double; z0 : double;
  x1 : double; y1 : double; z1 : double;
  yaw : double;
  pitch : double;
  climbAngle : double;
  speed : double;
  consumptionPerSecond : double;
  timeExecutionStart : simtime;
  commandCompleted : bool;
  partOfMission : bool;
  replacementNeeded : bool
}.

(** Each engine holds a pointer to its command, which may be null. *)
Record WaypointCEE : Type := mkWaypointCEE {
  wp_base : CEEBase;
  wp_command : option WaypointCommand
}.

Record TakeoffCEE : Type := mkTakeoffCEE {
  tk_base : CEEBase;
  tk_command : option TakeoffCommand
}.

Record HoldPositionCEE : Type := mkHoldPositionCEE {
  hp_base : CEEBase;
  hp_command : option HoldPositionCommand;
  holdPositionTill : simtime
}.

Record ChargeCEE : Type := mkChargeCEE {
  ch_base : CEEBase;
  ch_command : option ChargeCommand;
  batteryRemainingExecutionStart : double
}.

Record ExchangeCEE : Type := mkExchangeCEE {
  ex_base : CEEBase;
  ex_command : option ExchangeCommand
}.

Record IdleCEE : Type := mkIdleCEE {
  id_base : CEEBase;
  id_command : option IdleCommand
}.

(** The class hierarchy as a closed variant: one case per engine. *)
Inductive CEE : Type :=
| Waypoint (e : WaypointCEE)
| Takeoff (e : TakeoffCEE)
| HoldPosition (e : HoldPositionCEE)
| Charge (e : ChargeCEE)
| Exchange (e : ExchangeCEE)
| Idle (e : IdleCEE).

Definition getType (e : CEE) : CeeType :=
  match e with
  | Waypoint _ => WAYPOINT
  | Takeoff _ => TAKEOFF
  | HoldPosition _ => HOLDPOSITION
  | Charge _ => CHARGE
  | Exchange _ => EXCHANGE
  | Idle _ => IDLE
  end.

Definition base (e : CEE) : CEEBase :=
  match e with
  | Waypoint e => wp_base e
  | Takeoff e => tk_base e
  | HoldPosition e => hp_base e
  | Charge e => ch_base e
  | Exchange e => ex_base e
  | Idle e => id_base e
  end.

Definition isSome {A : Type} (o : option A) : bool :=
  match o with Some _ => true | None => false end.

Definition hasCommand (e : CEE) : bool :=
  match e with
  | Waypoint e => isSome (wp_command e)
  | Takeoff e => isSome (tk_command e)
  | HoldPosition e => isSome (hp_command e)
  | Charge e => isSome (ch_command e)
  | Exchange e => isSome (ex_command e)
  | Idle e => isSome (id_command e)
  end.

(** *** The agent *)

(** Modelled from the spec: the battery sub-entity of the agent
    ([Battery.h] is not among the sources); its stored energy is what
    [getRemaining()] reports. *)
Record Battery : Type := mkBattery {
  capacity : double;
  getRemaining : double
}.

Record ReserveSpotMsg : Type := mkReserveSpotMsg {
  msg_name : string;
  estimatedArrival : simtime;
  consumptionTillArrival : double;
  targetPercentage : double
}.

(** The fields of [UAVNode] the engines read and write, the queue of
    pending engines, and what the node has handed to the messaging layer. *)
Record UAVNode : Type := mkUAVNode {
  n_x : double; n_y : double; n_z : double;
  n_yaw : double;
  n_pitch : double;
  n_climbAngle : double;
  n_speed : double;
  battery : Battery;
  cees : list CEE;
  missionId : Z;
  sent : list (ReserveSpotMsg * ChargingNode);
  transferred : list NodeId
}.

(** State of the random number stream consumption rates are drawn from. *)
Definition RngState : Type := N.

(** What lies outside an engine: the simulation clock, the bound node and
    the random stream. *)
Record World : Type := mkWorld {
  simTime : simtime;
  node : UAVNode;
  rng : RngState
}.

(** *** Collaborators

    Functions the engines call whose code is not in
    [CommandExecEngine.cc]: the C math library, the methods of [UAVNode]
    and [Battery], and the non-virtual helpers and default values declared
    in [CommandExecEngine.h] ([freshCEE] and the two values after it are
    what the members hold before a constructor assigns them). *)
Record Collaborators : Type := mkCollaborators {
  (* <cmath> *)
  sqrt : double -> double;
  atan2 : double -> double -> double;
  sin : double -> double;
  cos : double -> double;
  (* UAVNode *)
  getSpeed : UAVNode -> double -> double;
  getMovementConsumption : UAVNode -> double -> double -> Z -> double;
  getHoverConsumption : UAVNode -> double -> Z -> double;
  findNearestCN : double -> double -> double -> option ChargingNode;
  (* Battery *)
  isFull : Battery -> bool;
  discharge : Battery -> double -> Battery;
  getRemainingPercentage : Battery -> Z;
  (* CommandExecEngine *)
  isActive : CEE -> bool;
  predictNormConsumptionRandom : CEE -> UAVNode -> RngState -> double * RngState;
  freshCEE : CEEBase;
  freshHoldPositionTill : simtime;
  freshBatteryRemainingExecutionStart : double;
  defaultNormalized : bool;
  defaultFromMethod : Z
}.

(** ** Field updates *)

Local Open Scope double_scope.

Definition set_yaw (b : CEEBase) (v : double) : CEEBase :=
  mkCEEBase (x0 b) (y0 b) (z0 b) (x1 b) (y1 b) (z1 b) v (pitch b)
    (climbAngle b) (speed b) (consumptionPerSecond b) (timeExecutionStart b)
    (commandCompleted b) (partOfMission b) (replacementNeeded b).

Definition set_pitch (b : CEEBase) (v : double) : CEEBase :=
  mkCEEBase (x0 b) (y0 b) (z0 b) (x1 b) (y1 b) (z1 b) (yaw b) v
    (climbAngle b) (speed b) (consumptionPerSecond b) (timeExecutionStart b)
    (commandCompleted b) (partOfMission b) (replacementNeeded b).

Definition set_climbAngle (b : CEEBase) (v : double) : CEEBase :=
  mkCEEBase (x0 b) (y0 b) (z0 b) (x1 b) (y1 b) (z1 b) (yaw b) (pitch b)
    v (speed b) (consumptionPerSecond b) (timeExecutionStart b)
    (commandCompleted b) (partOfMission b) (replacementNeeded b).

Definition set_speed (b : CEEBase) (v : double) : CEEBase :=
  mkCEEBase (x0 b) (y0 b) (z0 b) (x1 b) (y1 b) (z1 b) (yaw b) (pitch b)
    (climbAngle b) v (consumptionPerSecond b) (timeExecutionStart b)
    (commandCompleted b) (partOfMission b) (replacementNeeded b).

Definition set_consumptionPerSecond (b : CEEBase) (v : double) : CEEBase :=
  mkCEEBase (x0 b) (y0 b) (z0 b) (x1 b) (y1 b) (z1 b) (yaw b) (pitch b)
    (climbAngle b) (speed b) v (timeExecutionStart b)
    (commandCompleted b) (partOfMission b) (replacementNeeded b).

Definition set_timeExecutionStart (b : CEEBase) (t : simtime) : CEEBase :=
  mkCEEBase (x0 b) (y0 b) (z0 b) (x1 b) (y1 b) (z1 b) (yaw b) (pitch b)
    (climbAngle b) (speed b) (consumptionPerSecond b) t
    (commandCompleted b) (partOfMission b) (replacementNeeded b).

(** Modelled from the spec: the setters of [CommandExecEngine] (declared in
    [CommandExecEngine.h]): origin and target coordinates, the completion
    latch, the part-of-mission flag and the replacement-needed flag. *)
Definition setFromCoordinates (b : CEEBase) (x y z : double) : CEEBase :=
  mkCEEBase x y z (x1 b) (y1 b) (z1 b) (yaw b) (pitch b)
    (climbAngle b) (speed b) (consumptionPerSecond b) (timeExecutionStart b)
    (commandCompleted b) (partOfMission b) (replacementNeeded b).

Definition setToCoordinates (b : CEEBase) (x y z : double) : CEEBase :=
  mkCEEBase (x0 b) (y0 b) (z0 b) x y z (yaw b) (pitch b)
    (climbAngle b) (speed b) (consumptionPerSecond b) (timeExecutionStart b)
    (commandCompleted b) (partOfMission b) (replacementNeeded b).

Definition setCommandCompleted (b : CEEBase) : CEEBase :=
  mkCEEBase (x0 b) (y0 b) (z0 b) (x1 b) (y1 b) (z1 b) (yaw b) (pitch b)
    (climbAngle b) (speed b) (consumptionPerSecond b) (timeExecutionStart b)
    true (partOfMission b) (replacementNeeded b).

Definition setPartOfMission (b : CEEBase) (v : bool) : CEEBase :=
  mkCEEBase (x0 b) (y0 b) (z0 b) (x1 b) (y1 b) (z1 b) (yaw b) (pitch b)
    (climbAngle b) (speed b) (consumptionPerSecond b) (timeExecutionStart b)
    (commandCompleted b) v (replacementNeeded b).

Definition setNoReplacementNeeded (b : CEEBase) : CEEBase :=
  mkCEEBase (x0 b) (y0 b) (z0 b) (x1 b) (y1 b) (z1 b) (yaw b) (pitch b)
    (climbAngle b) (speed b) (consumptionPerSecond b) (timeExecutionStart b)
    (commandCompleted b) (partOfMission b) false.

(** The same setters through a [CommandExecEngine*]. *)
Definition map_base (f : CEEBase -> CEEBase) (e : CEE) : CEE :=
  match e with
  | Waypoint e => Waypoint (mkWaypointCEE (f (wp_base e)) (wp_command e))
  | Takeoff e => Takeoff (mkTakeoffCEE (f (tk_base e)) (tk_command e))
  | HoldPosition e =>
      HoldPosition (mkHoldPositionCEE (f (hp_base e)) (hp_command e) (holdPositionTill e))
  | Charge e =>
      Charge (mkChargeCEE (f (ch_base e)) (ch_command e) (batteryRemainingExecutionStart e))
  | Exchange e => Exchange (mkExchangeCEE (f (ex_base e)) (ex_command e))
  | Idle e => Idle (mkIdleCEE (f (id_base e)) (id_command e))
  end.

(** Assignments to the fields of the node. *)
Definition set_position (n : UAVNode) (x y z : double) : UAVNode :=
  mkUAVNode x y z (n_yaw n) (n_pitch n) (n_climbAngle n) (n_speed n)
    (battery n) (cees n) (missionId n) (sent n) (transferred n).

Definition set_n_yaw (n : UAVNode) (v : double) : UAVNode :=
  mkUAVNode (n_x n) (n_y n) (n_z n) v (n_pitch n) (n_climbAngle n) (n_speed n)
    (battery n) (cees n) (missionId n) (sent n) (transferred n).

Definition set_n_pitch (n : UAVNode) (v : double) : UAVNode :=
  mkUAVNode (n_x n) (n_y n) (n_z n) (n_yaw n) v (n_climbAngle n) (n_speed n)
    (battery n) (cees n) (missionId n) (sent n) (transferred n).

Definition set_n_climbAngle (n : UAVNode) (v : double) : UAVNode :=
  mkUAVNode (n_x n) (n_y n) (n_z n) (n_yaw n) (n_pitch n) v (n_speed n)
    (battery n) (cees n) (missionId n) (sent n) (transferred n).

Definition set_n_speed (n : UAVNode) (v : double) : UAVNode :=
  mkUAVNode (n_x n) (n_y n) (n_z n) (n_yaw n) (n_pitch n) (n_climbAngle n) v
    (battery n) (cees n) (missionId n) (sent n) (transferred n).

Definition set_battery (n : UAVNode) (b : Battery) : UAVNode :=
  mkUAVNode (n_x n) (n_y n) (n_z n) (n_yaw n) (n_pitch n) (n_climbAngle n)
    (n_speed n) b (cees n) (missionId n) (sent n) (transferred n).

Definition set_cees (n : UAVNode) (q : list CEE) : UAVNode :=
  mkUAVNode (n_x n) (n_y n) (n_z n) (n_yaw n) (n_pitch n) (n_climbAngle n)
    (n_speed n) (battery n) q (missionId n) (sent n) (transferred n).

Definition set_missionId (n : UAVNode) (m : Z) : UAVNode :=
  mkUAVNode (n_x n) (n_y n) (n_z n) (n_yaw n) (n_pitch n) (n_climbAngle n)
    (n_speed n) (battery n) (cees n) m (sent n) (transferred n).

(** [cees.push_front(e)]. *)
Definition push_front (n : UAVNode) (e : CEE) : UAVNode :=
  set_cees n (e :: cees n).

(** [node->send(msg, node->getOutputGateTo(cn))]. *)
Definition send (n : UAVNode) (msg : ReserveSpotMsg) (cn : ChargingNode) : UAVNode :=
  mkUAVNode (n_x n) (n_y n) (n_z n) (n_yaw n) (n_pitch n) (n_climbAngle n)
    (n_speed n) (battery n) (cees n) (missionId n)
    (sent n ++ [(msg, cn)]) (transferred n).

(** [node->transferMissionDataTo(otherNode)], as far as the sender sees it. *)
Definition transferMissionDataTo (n : UAVNode) (other : NodeId) : UAVNode :=
  mkUAVNode (n_x n) (n_y n) (n_z n) (n_yaw n) (n_pitch n) (n_climbAngle n)
    (n_speed n) (battery n) (cees n) (missionId n)
    (sent n) (transferred n ++ [other]).

Definition set_node (w : World) (n : UAVNode) : World :=
  mkWorld (simTime w) n (rng w).

Definition set_rng (w : World) (r : RngState) : World :=
  mkWorld (simTime w) (node w) r.

(** ** The engines *)

Section Engines.

Variable K : Collaborators.

(** *** Waypoint *)

Definition new_WaypointCEE (boundNode : UAVNode) (command : WaypointCommand)
  : WaypointCEE :=
  let b := setFromCoordinates (freshCEE K) (n_x boundNode) (n_y boundNode) (n_z boundNode) in
  let b := setToCoordinates b (wpc_getX command) (wpc_getY command) (wpc_getZ command) in
  mkWaypointCEE b (Some command).

Definition WaypointCEE_isCommandCompleted (this : WaypointCEE) (w : World) : bool :=
  let b := wp_base this in
  let distanceSum :=
    fabs (x1 b - n_x (node w)) + fabs (y1 b - n_y (node w)) + fabs (z1 b - n_z (node w)) in
  commandCompleted b || (distanceSum <? eps).

(** [abs] is applied to a [double]: the floating-point overload. *)
Definition WaypointCEE_initializeCEE (this : WaypointCEE) (w : World)
  : Result (WaypointCEE * World) :=
  match wp_command this with
  | None => Fail (cRuntimeError "initializeCEE(): Command missing.")
  | Some _ =>
      let b := wp_base this in
      let dx := x1 b - x0 b in
      let dy := y1 b - y0 b in
      let dz := z1 b - z0 b in
      let dx := if fabs dx <? eps then DFin 0 else dx in
      let dy := if fabs dy <? eps then DFin 0 else dy in
      let dz := if fabs dz <? eps then DFin 0 else dz in
      let yaw' := atan2 K dy dx / M_PI * DFin 180 in
      let yaw' := if yaw' <? DFin 0 then yaw' + DFin 360 else yaw' in
      let climbAngle' :=
        atan2 K dz (sqrt K (dx * dx + dy * dy)) / M_PI * DFin 180 in
      let pitch' := DFin (-1 # 1) * climbAngle' in
      let speed' := getSpeed K (node w) climbAngle' in
      let b := set_speed (set_pitch (set_climbAngle (set_yaw b yaw') climbAngle') pitch') speed' in
      let this1 := mkWaypointCEE b (wp_command this) in
      let (rate, r) := predictNormConsumptionRandom K (Waypoint this1) (node w) (rng w) in
      Ok (mkWaypointCEE (set_consumptionPerSecond b rate) (wp_command this),
          set_rng w r)
  end.

Definition WaypointCEE_setNodeParameters (this : WaypointCEE) (w : World)
  : WaypointCEE * World :=
  let b := wp_base this in
  let n := set_n_yaw (node w) (yaw b) in
  let n := set_n_pitch n (pitch b) in
  let n := set_n_climbAngle n (climbAngle b) in
  let n := set_n_speed n (speed b) in
  (mkWaypointCEE (set_timeExecutionStart b (simTime w)) (wp_command this),
   set_node w n).

Definition WaypointCEE_updateState (this : WaypointCEE) (stepSize : double) (w : World)
  : WaypointCEE * World :=
  let b := wp_base this in
  let stepDistance := stepSize * speed b in
  let stepZ := stepDistance * sin K (M_PI * climbAngle b / DFin 180) in
  let stepXY := stepDistance * cos K (M_PI * climbAngle b / DFin 180) in
  let stepX := stepXY * cos K (M_PI * yaw b / DFin 180) in
  let stepY := stepXY * sin K (M_PI * yaw b / DFin 180) in
  let n := node w in
  let n := set_position n (n_x n + stepX) (n_y n + stepY) (n_z n + stepZ) in
  let n := set_battery n (discharge K (battery n) (consumptionPerSecond b * stepSize)) in
  (this, set_node w n).

Definition WaypointCEE_getOverallDuration (this : WaypointCEE) : double :=
  let b := wp_base this in
  let dx := x1 b - x0 b in
  let dy := y1 b - y0 b in
  let dz := z1 b - z0 b in
  let distance := sqrt K (dx * dx + dy * dy + dz * dz) in
  let distance := if distance <? eps then DFin 0 else distance in
  distance / speed b.

Definition WaypointCEE_getRemainingTime (this : WaypointCEE) (w : World) : double :=
  let b := wp_base this in
  let dx := x1 b - n_x (node w) in
  let dy := y1 b - n_y (node w) in
  let dz := z1 b - n_z (node w) in
  let distance := sqrt K (dx * dx + dy * dy + dz * dz) in
  let distance := if distance <? eps then DFin 0 else distance in
  distance / speed b.

Definition WaypointCEE_getProbableConsumption
    (this : WaypointCEE) (w : World) (normalized : bool) (fromMethod : Z)
  : Result double :=
  let b := wp_base this in
  let dx := x1 b - x0 b in
  let dy := y1 b - y0 b in
  let dz := z1 b - z0 b in
  let distance := sqrt K (dx * dx + dy * dy + dz * dz) in
  if distance <? eps then Ok (DFin 0)
  else
    let duration := distance / speed b in
    let completeConsumption :=
      getMovementConsumption K (node w) (climbAngle b) (distance / speed b) fromMethod in
    _ <- ASSERT ((completeConsumption >? DFin 0)
                 && (completeConsumption / duration <? DFin 1000))
           "completeConsumption > 0 && (completeConsumption / duration) < 1000" ;;
    if normalized then Ok (completeConsumption / duration)
    else Ok completeConsumption.

(** *** Takeoff *)

Definition new_TakeoffCEE (boundNode : UAVNode) (command : TakeoffCommand)
  : TakeoffCEE :=
  let b := setFromCoordinates (freshCEE K) (n_x boundNode) (n_y boundNode) (n_z boundNode) in
  let b := setToCoordinates b (n_x boundNode) (n_y boundNode) (tkc_getZ command) in
  mkTakeoffCEE b (Some command).

Definition TakeoffCEE_isCommandCompleted (this : TakeoffCEE) (w : World) : bool :=
  let distanceSum := fabs (z1 (tk_base this) - n_z (node w)) in
  distanceSum <? eps.

Definition TakeoffCEE_initializeCEE (this : TakeoffCEE) (w : World)
  : TakeoffCEE * World :=
  let b := tk_base this in
  let b := set_pitch b (DFin 0) in
  let b := set_climbAngle b (if z1 b >? z0 b then DFin 90 else DFin (-90 # 1)) in
  let b := set_speed b (getSpeed K (node w) (climbAngle b)) in
  let this1 := mkTakeoffCEE b (tk_command this) in
  let (rate, r) := predictNormConsumptionRandom K (Takeoff this1) (node w) (rng w) in
  (mkTakeoffCEE (set_consumptionPerSecond b rate) (tk_command this), set_rng w r).

Definition TakeoffCEE_setNodeParameters (this : TakeoffCEE) (w : World)
  : TakeoffCEE * World :=
  let b := tk_base this in
  let n := set_n_pitch (node w) (pitch b) in
  let n := set_n_climbAngle n (climbAngle b) in
  let n := set_n_speed n (speed b) in
  (mkTakeoffCEE (set_timeExecutionStart b (simTime w)) (tk_command this),
   set_node w n).

Definition TakeoffCEE_updateState (this : TakeoffCEE) (stepSize : double) (w : World)
  : TakeoffCEE * World :=
  let b := tk_base this in
  let stepDistance := speed b * stepSize in
  let n := node w in
  let n :=
    if z1 b >? n_z n
    then set_position n (n_x n) (n_y n) (n_z n + stepDistance)
    else set_position n (n_x n) (n_y n) (n_z n - stepDistance) in
  let n := set_battery n (discharge K (battery n) (consumptionPerSecond b * stepSize)) in
  (this, set_node w n).

Definition TakeoffCEE_getOverallDuration (this : TakeoffCEE) : double :=
  let b := tk_base this in
  fabs (z1 b - z0 b) / speed b.

Definition TakeoffCEE_getRemainingTime (this : TakeoffCEE) (w : World) : double :=
  let b := tk_base this in
  fabs (z1 b - n_z (node w)) / speed b.

Definition TakeoffCEE_getProbableConsumption
    (this : TakeoffCEE) (w : World) (normalized : bool) (fromMethod : Z)
  : Result double :=
  let b := tk_base this in
  let duration := fabs (z1 b - z0 b) / speed b in
  let completeConsumption :=
    getMovementConsumption K (node w) (climbAngle b) duration fromMethod in
  _ <- ASSERT ((completeConsumption >=? DFin 0)
               && (completeConsumption / duration <? DFin 1000))
         "completeConsumption >= 0 && (completeConsumption / duration) < 1000" ;;
  if normalized then Ok (completeConsumption / duration)
  else Ok completeConsumption.

(** *** HoldPosition *)

Definition new_HoldPositionCEE (boundNode : UAVNode) (command : HoldPositionCommand)
  : HoldPositionCEE :=
  let b := setFromCoordinates (freshCEE K) (n_x boundNode) (n_y boundNode) (n_z boundNode) in
  let b := setToCoordinates b (hpc_getX command) (hpc_getY command) (hpc_getZ command) in
  mkHoldPositionCEE b (Some command) (freshHoldPositionTill K).

Definition HoldPositionCEE_isCommandCompleted (this : HoldPositionCEE) (w : World)
  : Result bool :=
  if Qltb (holdPositionTill this) (simTime w)
  then Fail (cRuntimeError "Unexpected situation: HoldPosition lasted longer than intended.")
  else Ok (if commandCompleted (hp_base this)
              || Qeq_bool (simTime w) (holdPositionTill this)
           then true else false).

Definition HoldPositionCEE_initializeCEE (this : HoldPositionCEE) (w : World)
  : Result (HoldPositionCEE * World) :=
  match hp_command this with
  | None => Fail NullPointer
  | Some command =>
      till <- SimTime_plus (simTime w) (hpc_getHoldSeconds command) ;;
      let this1 := mkHoldPositionCEE (hp_base this) (hp_command this) till in
      let (rate, r) :=
        predictNormConsumptionRandom K (HoldPosition this1) (node w) (rng w) in
      Ok (mkHoldPositionCEE (set_consumptionPerSecond (hp_base this) rate)
            (hp_command this) till,
          set_rng w r)
  end.

Definition HoldPositionCEE_setNodeParameters (this : HoldPositionCEE) (w : World)
  : HoldPositionCEE * World :=
  let n := set_n_pitch (node w) (DFin 0) in
  let n := set_n_climbAngle n (DFin 0) in
  let n := set_n_speed n (DFin 0) in
  (mkHoldPositionCEE (set_timeExecutionStart (hp_base this) (simTime w))
     (hp_command this) (holdPositionTill this),
   set_node w n).

Definition HoldPositionCEE_updateState
    (this : HoldPositionCEE) (stepSize : double) (w : World)
  : HoldPositionCEE * World :=
  let n := node w in
  let n := set_battery n
             (discharge K (battery n) (consumptionPerSecond (hp_base this) * stepSize)) in
  (this, set_node w n).

Definition HoldPositionCEE_getOverallDuration (this : HoldPositionCEE)
  : Result double :=
  match hp_command this with
  | None => Fail NullPointer
  | Some command => Ok (hpc_getHoldSeconds command)
  end.

Definition HoldPositionCEE_getRemainingTime (this : HoldPositionCEE) (w : World)
  : double :=
  dbl (holdPositionTill this - simTime w)%Q.

Definition HoldPositionCEE_getProbableConsumption
    (this : HoldPositionCEE) (w : World) (normalized : bool) (fromMethod : Z)
  : Result double :=
  match hp_command this with
  | None => Fail NullPointer
  | Some command =>
      let duration := hpc_getHoldSeconds command in
      let completeConsumption := getHoverConsumption K (node w) duration fromMethod in
      _ <- ASSERT ((completeConsumption >=? DFin 0)
                   && (completeConsumption / duration <? DFin 1000))
             "completeConsumption >= 0 && (completeConsumption / duration) < 1000" ;;
      if normalized then Ok (completeConsumption / duration)
      else Ok completeConsumption
  end.

(** *** Charge *)

Definition new_ChargeCEE (boundNode : UAVNode) (command : option ChargeCommand)
  : ChargeCEE :=
  let b := setFromCoordinates (freshCEE K) (n_x boundNode) (n_y boundNode) (n_z boundNode) in
  let b := setToCoordinates b (n_x boundNode) (n_y boundNode) (n_z boundNode) in
  mkChargeCEE b command (freshBatteryRemainingExecutionStart K).

Definition ChargeCEE_isCommandCompleted (this : ChargeCEE) (w : World) : bool :=
  commandCompleted (ch_base this) || isFull K (battery (node w)).

Definition ChargeCEE_initializeCEE (this : ChargeCEE) (w : World)
  : ChargeCEE * World :=
  (this, w).

(** The heading is computed in [int] arithmetic and then stored in a
    [double]. *)
Definition cosmeticYaw (n : UAVNode) : double :=
  ofZ (Z.rem (int_wrap (Z.quot (getRemainingPercentage K (battery n)) 10 * 360)) 360).

Definition ChargeCEE_setNodeParameters (this : ChargeCEE) (w : World)
  : ChargeCEE * World :=
  let n := set_n_yaw (node w) (cosmeticYaw (node w)) in
  let n := set_n_pitch n (DFin 0) in
  let n := set_n_climbAngle n (DFin 0) in
  let n := set_n_speed n (DFin 0) in
  (mkChargeCEE (set_timeExecutionStart (ch_base this) (simTime w))
     (ch_command this) (getRemaining (battery n)),
   set_node w n).

Definition ChargeCEE_updateState (this : ChargeCEE) (stepSize : double) (w : World)
  : ChargeCEE * World :=
  (this, w).

Definition ChargeCEE_getOverallDuration (this : ChargeCEE) : Result double :=
  Fail (cRuntimeError "ChargeCEE has no determined ending time").

Definition ChargeCEE_getRemainingTime (this : ChargeCEE) (w : World) : Result double :=
  Fail (cRuntimeError "ChargeCEE has no determined ending time").

Definition ChargeCEE_getProbableConsumption
    (this : ChargeCEE) (w : World) (normalized : bool) (fromMethod : Z) : double :=
  DFin 0.

Definition ChargeCEE_getConsumptionTotal (this : ChargeCEE) (w : World)
  : Result double :=
  if negb (isActive K (Charge this))
  then Fail (cRuntimeError "getDuration(): CEE not yet started")
  else
    let difference :=
      toFloat (getRemaining (battery (node w)) - batteryRemainingExecutionStart this) in
    _ <- ASSERT (difference >? DFin 0) "difference > 0" ;;
    Ok (DFin (-1 # 1) * difference).

(** *** Idle *)

Definition new_IdleCEE (boundNode : UAVNode) (command : option IdleCommand) : IdleCEE :=
  let b := setFromCoordinates (freshCEE K) (n_x boundNode) (n_y boundNode) (n_z boundNode) in
  let b := setToCoordinates b (n_x boundNode) (n_y boundNode) (n_z boundNode) in
  mkIdleCEE b command.

Definition IdleCEE_isCommandCompleted (this : IdleCEE) (w : World) : bool :=
  commandCompleted (id_base this).

Definition IdleCEE_initializeCEE (this : IdleCEE) (w : World) : IdleCEE * World :=
  (mkIdleCEE (set_consumptionPerSecond (id_base this) (DFin 0)) (id_command this), w).

Definition IdleCEE_setNodeParameters (this : IdleCEE) (w : World) : IdleCEE * World :=
  (mkIdleCEE (set_timeExecutionStart (id_base this) (simTime w)) (id_command this), w).

Definition IdleCEE_updateState (this : IdleCEE) (stepSize : double) (w : World)
  : IdleCEE * World :=
  let n := node w in
  let n := set_battery n
             (discharge K (battery n) (consumptionPerSecond (id_base this) * stepSize)) in
  (this, set_node w n).

Definition IdleCEE_getOverallDuration (this : IdleCEE) : Result double :=
  Fail (cRuntimeError "IdleCEE has no determined ending time").

Definition IdleCEE_getRemainingTime (this : IdleCEE) (w : World) : Result double :=
  Fail (cRuntimeError "IdleCEE has no determined ending time").

Definition IdleCEE_getProbableConsumption
    (this : IdleCEE) (w : World) (normalized : bool) (fromMethod : Z) : double :=
  DFin 0.

(** *** Exchange *)

Definition new_ExchangeCEE (boundNode : UAVNode) (command : option ExchangeCommand)
  : ExchangeCEE :=
  let b := setFromCoordinates (freshCEE K) (n_x boundNode) (n_y boundNode) (n_z boundNode) in
  let b := setToCoordinates b (n_x boundNode) (n_y boundNode) (n_z boundNode) in
  mkExchangeCEE b command.

Definition ExchangeCEE_isCommandCompleted (this : ExchangeCEE) (w : World) : bool :=
  commandCompleted (ex_base this).

Definition ExchangeCEE_initializeCEE (this : ExchangeCEE) (w : World)
  : ExchangeCEE * World :=
  let (rate, r) := predictNormConsumptionRandom K (Exchange this) (node w) (rng w) in
  (mkExchangeCEE (set_consumptionPerSecond (ex_base this) rate) (ex_command this),
   set_rng w r).

Definition ExchangeCEE_setNodeParameters (this : ExchangeCEE) (w : World)
  : ExchangeCEE * World :=
  let n := set_n_yaw (node w) (cosmeticYaw (node w)) in
  let n := set_n_pitch n (DFin 0) in
  let n := set_n_climbAngle n (DFin 0) in
  let n := set_n_speed n (DFin 0) in
  (mkExchangeCEE (set_timeExecutionStart (ex_base this) (simTime w)) (ex_command this),
   set_node w n).

Definition ExchangeCEE_updateState (this : ExchangeCEE) (stepSize : double) (w : World)
  : ExchangeCEE * World :=
  let n := node w in
  let n := set_battery n
             (discharge K (battery n) (consumptionPerSecond (ex_base this) * stepSize)) in
  (this, set_node w n).

Definition ExchangeCEE_getOverallDuration (this : ExchangeCEE) : Result double :=
  Fail (cRuntimeError "ExchangeCEE has no determined ending time").

Definition ExchangeCEE_getRemainingTime (this : ExchangeCEE) (w : World)
  : Result double :=
  Fail (cRuntimeError "ExchangeCEE has no determined ending time").

(** The warning for the non-normalized form is only logged. *)
Definition ExchangeCEE_getProbableConsumption
    (this : ExchangeCEE) (w : World) (normalized : bool) (fromMethod : Z)
  : Result double :=
  let duration := ofZ 1 in
  let completeConsumption := getHoverConsumption K (node w) duration 1 in
  _ <- ASSERT ((completeConsumption >=? DFin 0)
               && (completeConsumption / duration <? DFin 1000))
         "completeConsumption >= 0 && (completeConsumption / duration) < 1000" ;;
  Ok completeConsumption.

Definition ExchangeCEE_performEntryActions (this : ExchangeCEE) (w : World)
  : Result World :=
  match ex_command this with
  | None => Fail NullPointer
  | Some command =>
      if exc_isRechargeRequested command then
        if negb (exc_isOtherNodeKnown command) then Ok w
        else
          (* check_and_cast refuses a null pointer *)
          match exc_getOtherNode command with
          | None => Fail (cRuntimeError "check_and_cast(): cannot cast nullptr")
          | Some otherNode => Ok (set_node w (transferMissionDataTo (node w) otherNode))
          end
      else Ok w
  end.

Definition ExchangeCEE_performExitActions (this : ExchangeCEE) (w : World)
  : Result World :=
  match ex_command this with
  | None => Fail NullPointer
  | Some command =>
      if exc_isRechargeRequested command then
        (* Find nearest ChargingNode *)
        match findNearestCN K (n_x (node w)) (n_y (node w)) (n_z (node w)) with
        | None => Fail NullPointer
        | Some cn =>
            (* Generate WaypointCEE *)
            let goToChargingNodeCommand :=
              mkWaypointCommand (cn_getX cn) (cn_getY cn) (cn_getZ cn) in
            let goToChargingNodeCEE := new_WaypointCEE (node w) goToChargingNodeCommand in
            let goToChargingNodeCEE :=
              mkWaypointCEE
                (setNoReplacementNeeded (setPartOfMission (wp_base goToChargingNodeCEE) false))
                (wp_command goToChargingNodeCEE) in
            (* the CEE is initialized to get the duration of the flight *)
            '(goToChargingNodeCEE, w) <- WaypointCEE_initializeCEE goToChargingNodeCEE w ;;
            let goToChargingNodeDuration :=
              WaypointCEE_getOverallDuration goToChargingNodeCEE in
            (* Generate and send reservation message to CN *)
            arrival <- SimTime_plus (simTime w) goToChargingNodeDuration ;;
            consumption <-
              WaypointCEE_getProbableConsumption goToChargingNodeCEE w
                (defaultNormalized K) (defaultFromMethod K) ;;
            let msg := mkReserveSpotMsg "reserveSpot" arrival consumption (DFin 100) in
            let n := send (node w) msg cn in
            (* Generate ChargeCEE *)
            let chargeCommand := mkChargeCommand cn in
            let chargeCEE := Charge (new_ChargeCEE n (Some chargeCommand)) in
            let chargeCEE :=
              map_base (fun b => setToCoordinates b (cn_getX cn) (cn_getY cn) (cn_getZ cn))
                chargeCEE in
            let chargeCEE := map_base (fun b => setPartOfMission b false) chargeCEE in
            let chargeCEE := map_base setNoReplacementNeeded chargeCEE in
            let idleCommand := mkIdleCommand in
            let idleCEE := new_IdleCEE n (Some idleCommand) in
            let ib := id_base idleCEE in
            let ib := setToCoordinates ib (cn_getX cn) (cn_getY cn) (cn_getZ cn) in
            let ib := setFromCoordinates ib (cn_getX cn) (cn_getY cn) (cn_getZ cn) in
            let ib := setPartOfMission ib false in
            let ib := setNoReplacementNeeded ib in
            let idleCEE := mkIdleCEE ib (id_command idleCEE) in
            (* Add the CEEs to the CEEs queue *)
            let n := push_front n (Idle idleCEE) in
            let n := push_front n chargeCEE in
            let n := push_front n (Waypoint goToChargingNodeCEE) in
            let n := set_missionId n (-1) in
            Ok (set_node w n)
        end
      else Ok w
  end.

(** *** The lifecycle interface: virtual dispatch on the engine *)

Definition isCommandCompleted (e : CEE) (w : World) : Result bool :=
  match e with
  | Waypoint e => Ok (WaypointCEE_isCommandCompleted e w)
  | Takeoff e => Ok (TakeoffCEE_isCommandCompleted e w)
  | HoldPosition e => HoldPositionCEE_isCommandCompleted e w
  | Charge e => Ok (ChargeCEE_isCommandCompleted e w)
  | Exchange e => Ok (ExchangeCEE_isCommandCompleted e w)
  | Idle e => Ok (IdleCEE_isCommandCompleted e w)
  end.

Definition lift {A : Type} (inj : A -> CEE) (r : A * World) : CEE * World :=
  (inj (fst r), snd r).

Definition initializeCEE (e : CEE) (w : World) : Result (CEE * World) :=
  match e with
  | Waypoint e => r <- WaypointCEE_initializeCEE e w ;; Ok (lift Waypoint r)
  | Takeoff e => Ok (lift Takeoff (TakeoffCEE_initializeCEE e w))
  | HoldPosition e => r <- HoldPositionCEE_initializeCEE e w ;; Ok (lift HoldPosition r)
  | Charge e => Ok (lift Charge (ChargeCEE_initializeCEE e w))
  | Exchange e => Ok (lift Exchange (ExchangeCEE_initializeCEE e w))
  | Idle e => Ok (lift Idle (IdleCEE_initializeCEE e w))
  end.

Definition setNodeParameters (e : CEE) (w : World) : CEE * World :=
  match e with
  | Waypoint e => lift Waypoint (WaypointCEE_setNodeParameters e w)
  | Takeoff e => lift Takeoff (TakeoffCEE_setNodeParameters e w)
  | HoldPosition e => lift HoldPosition (HoldPositionCEE_setNodeParameters e w)
  | Charge e => lift Charge (ChargeCEE_setNodeParameters e w)
  | Exchange e => lift Exchange (ExchangeCEE_setNodeParameters e w)
  | Idle e => lift Idle (IdleCEE_setNodeParameters e w)
  end.

Definition updateState (e : CEE) (stepSize : double) (w : World) : CEE * World :=
  match e with
  | Waypoint e => lift Waypoint (WaypointCEE_updateState e stepSize w)
  | Takeoff e => lift Takeoff (TakeoffCEE_updateState e stepSize w)
  | HoldPosition e => lift HoldPosition (HoldPositionCEE_updateState e stepSize w)
  | Charge e => lift Charge (ChargeCEE_updateState e stepSize w)
  | Exchange e => lift Exchange (ExchangeCEE_updateState e stepSize w)
  | Idle e => lift Idle (IdleCEE_updateState e stepSize w)
  end.

Definition getOverallDuration (e : CEE) : Result double :=
  match e with
  | Waypoint e => Ok (WaypointCEE_getOverallDuration e)
  | Takeoff e => Ok (TakeoffCEE_getOverallDuration e)
  | HoldPosition e => HoldPositionCEE_getOverallDuration e
  | Charge e => ChargeCEE_getOverallDuration e
  | Exchange e => ExchangeCEE_getOverallDuration e
  | Idle e => IdleCEE_getOverallDuration e
  end.

Definition getRemainingTime (e : CEE) (w : World) : Result double :=
  match e with
  | Waypoint e => Ok (WaypointCEE_getRemainingTime e w)
  | Takeoff e => Ok (TakeoffCEE_getRemainingTime e w)
  | HoldPosition e => Ok (HoldPositionCEE_getRemainingTime e w)
  | Charge e => ChargeCEE_getRemainingTime e w
  | Exchange e => ExchangeCEE_getRemainingTime e w
  | Idle e => IdleCEE_getRemainingTime e w
  end.

Definition getProbableConsumption
    (e : CEE) (w : World) (normalized : bool) (fromMethod : Z) : Result double :=
  match e with
  | Waypoint e => WaypointCEE_getProbableConsumption e w normalized fromMethod
  | Takeoff e => TakeoffCEE_getProbableConsumption e w normalized fromMethod
  | HoldPosition e => HoldPositionCEE_getProbableConsumption e w normalized fromMethod
  | Charge e => Ok (ChargeCEE_getProbableConsumption e w normalized fromMethod)
  | Exchange e => ExchangeCEE_getProbableConsumption e w normalized fromMethod
  | Idle e => Ok (IdleCEE_getProbableConsumption e w normalized fromMethod)
  end.

(** *** Methods outside the lifecycle *)

Definition WaypointCEE_getCeeTypeString (this : WaypointCEE) : string := "Waypoint".
Definition TakeoffCEE_getCeeTypeString (this : TakeoffCEE) : string := "Take Off".
Definition HoldPositionCEE_getCeeTypeString (this : HoldPositionCEE) : string :=
  "Hold Position".
Definition ChargeCEE_getCeeTypeString (this : ChargeCEE) : string := "Charge".
Definition ExchangeCEE_getCeeTypeString (this : ExchangeCEE) : string := "Exchange".
Definition IdleCEE_getCeeTypeString (this : IdleCEE) : string := "Idle".

Definition getCeeTypeString (e : CEE) : string :=
  match e with
  | Waypoint e => WaypointCEE_getCeeTypeString e
  | Takeoff e => TakeoffCEE_getCeeTypeString e
  | HoldPosition e => HoldPositionCEE_getCeeTypeString e
  | Charge e => ChargeCEE_getCeeTypeString e
  | Exchange e => ExchangeCEE_getCeeTypeString e
  | Idle e => IdleCEE_getCeeTypeString e
  end.

Definition ExchangeCEE_getOtherNode (this : ExchangeCEE) : Result (option NodeId) :=
  match ex_command this with
  | None => Fail NullPointer
  | Some command => Ok (exc_getOtherNode command)
  end.

Section Quantile.

(** [UAVNode::getSpeed] with its second argument given: the speed at a
    quantile of the agent's speed distribution. *)
Variable getSpeedAt : UAVNode -> double -> Z -> double.

Definition WaypointCEE_getOverallDurationQuantile (this : WaypointCEE) (w : World)
  : double :=
  let b := wp_base this in
  let dx := x1 b - x0 b in
  let dy := y1 b - y0 b in
  let dz := z1 b - z0 b in
  let distance := sqrt K (dx * dx + dy * dy + dz * dz) in
  let distance := if distance <? eps then DFin 0 else distance in
  let pessimisticSpeed := toFloat (getSpeedAt (node w) (climbAngle b) 2) in
  distance / pessimisticSpeed.

End Quantile.

End Engines.

(** ** A concrete scenario

    A small instance of the collaborators, used to run the engines on
    concrete inputs: an agent that flies at 2 m/s whatever the climb angle,
    draws 5 mAh per second when moving and 3 mAh per second when hovering,
    and one charging station at (3, 4, 0). *)

Module Scenario.

Definition sqrt (a : double) : double :=
  match a with
  | DFin q =>
      if Qltb q 0 then DNaN
      else DFin (Z.sqrt (Qnum q * 10 ^ 24 / Zpos (Qden q)) # 10 ^ 12)
  | DInf false => DInf false
  | _ => DNaN
  end.

Definition half_pi : double := M_PI / DFin 2.

(** A rational approximation of the arc tangent, folded back to [-1, 1]. *)
Definition atan_unit (t : double) : double := t / (DFin 1 + DFin (9 # 32) * t * t).

Definition atan (t : double) : double :=
  if DFin 1 <? t then half_pi - atan_unit (DFin 1 / t)
  else if t <? DFin (-1 # 1) then - half_pi - atan_unit (DFin 1 / t)
  else atan_unit t.

Definition atan2 (y x : double) : double :=
  if DFin 0 <? x then atan (y / x)
  else if x <? DFin 0 then
    (if y <? DFin 0 then atan (y / x) - M_PI else atan (y / x) + M_PI)
  else if DFin 0 <? y then half_pi
  else if y <? DFin 0 then - half_pi
  else DFin 0.

Definition sin (a : double) : double :=
  a - a * a * a / DFin 6 + a * a * a * a * a / DFin 120.

Definition cos (a : double) : double :=
  DFin 1 - a * a / DFin 2 + a * a * a * a / DFin 24.

Definition station : ChargingNode := mkChargingNode 7%nat (DFin 3) (DFin 4) (DFin 0).

Definition isFull (b : Battery) : bool := capacity b <=? getRemaining b.

Definition discharge (b : Battery) (amount : double) : Battery :=
  mkBattery (capacity b) (getRemaining b - amount).

Definition getRemainingPercentage (b : Battery) : Z :=
  match (getRemaining b * DFin 100 / capacity b)%D with
  | DFin q => Qfloor q
  | _ => 0
  end.

Definition fresh : CEEBase :=
  mkCEEBase (DFin 0) (DFin 0) (DFin 0) (DFin 0) (DFin 0) (DFin 0)
    (DFin 0) (DFin 0) (DFin 0) (DFin 0) (DFin 0) 0%Q false true true.

Definition K : Collaborators :=
  mkCollaborators sqrt atan2 sin cos
    (fun _ _ => DFin 2)
    (fun _ _ duration _ => DFin 5 * duration)
    (fun _ duration _ => DFin 3 * duration)
    (fun _ _ _ => Some station)
    isFull discharge getRemainingPercentage
    (fun e => Qltb 0 (timeExecutionStart (base e)))
    (fun _ _ r => (DFin 4, N.succ r))
    fresh 0%Q (DFin 0) true 0%Z.

(** The same agent with a consumption model gone wrong: it cannot move and
    reports a negative energy draw. *)
Definition faulty : Collaborators :=
  mkCollaborators sqrt atan2 sin cos
    (fun _ _ => DFin 0)
    (fun _ _ _ _ => DFin (-1 # 1))
    (fun _ _ _ => DFin (-1 # 1))
    (fun _ _ _ => Some station)
    isFull discharge getRemainingPercentage
    (fun e => Qltb 0 (timeExecutionStart (base e)))
    (fun _ _ r => (DFin 4, N.succ r))
    fresh 0%Q (DFin 0) true 0%Z.

(** The same agent flying for free: moving draws no energy at all. *)
Definition frugal : Collaborators :=
  mkCollaborators sqrt atan2 sin cos
    (fun _ _ => DFin 2)
    (fun _ _ _ _ => DFin 0)
    (fun _ duration _ => DFin 3 * duration)
    (fun _ _ _ => Some station)
    isFull discharge getRemainingPercentage
    (fun e => Qltb 0 (timeExecutionStart (base e)))
    (fun _ _ r => (DFin 4, N.succ r))
    fresh 0%Q (DFin 0) true 0%Z.

Definition halfCharged : Battery := mkBattery (DFin 2000) (DFin 1000).

(** An agent at rest at the origin. *)
Definition agent : UAVNode :=
  mkUAVNode (DFin 0) (DFin 0) (DFin 0) (DFin 0) (DFin 0) (DFin 0) (DFin 0)
    halfCharged [] 12%Z [] [].

Definition world (now : simtime) (n : UAVNode) : World := mkWorld now n 0%N.

(** Hold the position for 30 seconds. *)
Definition hold30s : HoldPositionCommand :=
  mkHoldPositionCommand (DFin 0) (DFin 0) (DFin 0) (DFin 30).

(** The engine for [hold30s] once initialized at time 0: deadline 30. *)
Definition holding : HoldPositionCEE :=
  mkHoldPositionCEE
    (mkCEEBase (DFin 0) (DFin 0) (DFin 0) (DFin 0) (DFin 0) (DFin 0)
       (DFin 0) (DFin 0) (DFin 0) (DFin 0) (DFin 4) 0%Q false true true)
    (Some hold30s) 30%Q.

(** The same engine with its completion latch set from outside. *)
Definition latched : HoldPositionCEE :=
  mkHoldPositionCEE (setCommandCompleted (hp_base holding))
    (hp_command holding) (holdPositionTill holding).

(** A Charge engine started at time 5 with 1000 mAh stored, and one started
    on an empty battery. *)
Definition charging : ChargeCEE :=
  fst (ChargeCEE_setNodeParameters K (new_ChargeCEE K agent None) (world 5 agent)).

Definition flat : UAVNode := set_battery agent (mkBattery (DFin 2000) (DFin 0)).

Definition chargingFromFlat : ChargeCEE :=
  fst (ChargeCEE_setNodeParameters K (new_ChargeCEE K flat None) (world 5 flat)).

(** A minute later, with [remaining] mAh in the battery. *)
Definition charged (remaining : double) : World :=
  world 65 (set_battery agent (mkBattery (DFin 2000) remaining)).

End Scenario.

(** The clock moves on; nothing else changes. *)
Definition atTime (w : World) (now : simtime) : World :=
  mkWorld now (node w) (rng w).

(** ** Vocabulary of the properties *)

(** The origin-to-target distance as [WaypointCEE] computes it. *)
Definition legDistance (K : Collaborators) (this : WaypointCEE) : double :=
  let b := wp_base this in
  sqrt K ((x1 b - x0 b) * (x1 b - x0 b) + (y1 b - y0 b) * (y1 b - y0 b)
          + (z1 b - z0 b) * (z1 b - z0 b)).

(** The clock has passed the deadline of a HoldPosition engine. *)
Definition deadlinePassed (e : CEE) (w : World) : bool :=
  match e with
  | HoldPosition hp => Qltb (holdPositionTill hp) (simTime w)
  | _ => false
  end.

(** The engines whose [initializeCEE()] never looks at the command. *)
Definition ignoresCommand (t : CeeType) : bool :=
  match t with
  | TAKEOFF | CHARGE | EXCHANGE | IDLE => true
  | WAYPOINT | HOLDPOSITION => false
  end.

(** The hold duration of a HoldPosition engine, if it has a command, is a
    finite number. *)
Definition finiteHold (e : CEE) : bool :=
  match e with
  | HoldPosition hp =>
      match hp_command hp with
      | Some c => isFinite (hpc_getHoldSeconds c)
      | None => true
      end
  | _ => true
  end.

(** What [getProbableConsumption()] asks of the consumption model: the
    consumption figure it obtains and the duration it divides by, or nothing
    when the engine answers without consulting the model. *)
Definition forecastBasis (K : Collaborators) (e : CEE) (w : World) (fromMethod : Z)
  : option (double * double) :=
  match e with
  | Waypoint this =>
      if legDistance K this <? eps then None
      else
        let duration := legDistance K this / speed (wp_base this) in
        Some (getMovementConsumption K (node w) (climbAngle (wp_base this))
                duration fromMethod,
              duration)
  | Takeoff this =>
      let b := tk_base this in
      let duration := fabs (z1 b - z0 b) / speed b in
      Some (getMovementConsumption K (node w) (climbAngle b) duration fromMethod,
            duration)
  | HoldPosition this =>
      match hp_command this with
      | None => None
      | Some command =>
          let duration := hpc_getHoldSeconds command in
          Some (getHoverConsumption K (node w) duration fromMethod, duration)
      end
  | Exchange _ => Some (getHoverConsumption K (node w) (ofZ 1) 1, ofZ 1)
  | Charge _ | Idle _ => None
  end.

(** [0 <= consumption / duration < 1000]. *)
Definition withinSanityBound (consumption duration : double) : bool :=
  (DFin 0 <=? consumption / duration) && (consumption / duration <? DFin 1000).

(** The engine for the flight to the station [cn], as the exit action builds
    it before initializing it. *)
Definition plannedTravel (K : Collaborators) (n : UAVNode) (cn : ChargingNode)
  : WaypointCEE :=
  let e := new_WaypointCEE K n (mkWaypointCommand (cn_getX cn) (cn_getY cn) (cn_getZ cn)) in
  mkWaypointCEE (setNoReplacementNeeded (setPartOfMission (wp_base e) false))
    (wp_command e).

(** An engine is flagged as outside the mission and as needing no
    replacement. *)
Definition detached (e : CEE) : bool :=
  negb (partOfMission (base e)) && negb (replacementNeeded (base e)).

(** The target of an engine is the station. *)
Definition headsFor (e : CEE) (cn : ChargingNode) : Prop :=
  x1 (base e) = cn_getX cn /\ y1 (base e) = cn_getY cn /\ z1 (base e) = cn_getZ cn.

(** A run of ticks: [updateState] once for each step size, in order. *)
Fixpoint updateStates (K : Collaborators) (e : CEE) (steps : list double) (w : World)
  : CEE * World :=
  match steps with
  | [] => (e, w)
  | stepSize :: rest =>
      let r := updateState K e stepSize w in
      updateStates K (fst r) rest (snd r)
  end.

(** Everything of the world but the position and the battery of the agent
    is the same in [w] and [w']. *)
Definition sameButPositionAndBattery (w w' : World) : Prop :=
  simTime w' = simTime w /\ rng w' = rng w
  /\ n_yaw (node w') = n_yaw (node w)
  /\ n_pitch (node w') = n_pitch (node w)
  /\ n_climbAngle (node w') = n_climbAngle (node w)
  /\ n_speed (node w') = n_speed (node w)
  /\ cees (node w') = cees (node w)
  /\ missionId (node w') = missionId (node w)
  /\ sent (node w') = sent (node w)
  /\ transferred (node w') = transferred (node w).

(** The agent is at the same place in [w] and [w']. *)
Definition samePosition (w w' : World) : Prop :=
  n_x (node w') = n_x (node w) /\ n_y (node w') = n_y (node w)
  /\ n_z (node w') = n_z (node w).

(** A displacement below 1e-10 counts as none. *)
Definition snapped (d : double) : double :=
  if fabs d <? eps then DFin 0 else d.


(** Everything of the agent but its queue, its mission id and its messages
    is the same in [w] and [w'], and so is the clock. *)
Definition sameAgentBody (w w' : World) : Prop :=
  simTime w' = simTime w
  /\ samePosition w w'
  /\ n_yaw (node w') = n_yaw (node w)
  /\ n_pitch (node w') = n_pitch (node w)
  /\ n_climbAngle (node w') = n_climbAngle (node w)
  /\ n_speed (node w') = n_speed (node w)
  /\ battery (node w') = battery (node w).

(** The peer, if any, as a list. *)
Definition peers (o : option NodeId) : list NodeId :=
  match o with Some p => [p] | None => [] end.

(** The origin of an engine. *)
Definition startsAt (e : CEE) (x y z : double) : Prop :=
  x0 (base e) = x /\ y0 (base e) = y /\ z0 (base e) = z.

(** ** Facts about comparisons *)

Lemma Qltb_lt (a b : Q) : Qltb a b = true <-> (a < b)%Q.
Proof.
  unfold Qltb. rewrite Qlt_alt.
  destruct (a ?= b)%Q; split; intro H; congruence.
Qed.

Lemma Qltb_ge (a b : Q) : Qltb a b = false <-> (b <= a)%Q.
Proof.
  split; intro H.
  - apply Qnot_lt_le. intro L. apply Qltb_lt in L. congruence.
  - destruct (Qltb a b) eqn:E; [|reflexivity].
    apply Qltb_lt in E. exfalso. apply (Qlt_not_le _ _ E H).
Qed.

Lemma Qeq_bool_false (a b : Q) : Qeq_bool a b = false <-> ~ (a == b)%Q.
Proof.
  split.
  - intros H E. apply Qeq_bool_iff in E. congruence.
  - intro H. destruct (Qeq_bool a b) eqn:E; [|reflexivity].
    apply Qeq_bool_iff in E. contradiction.
Qed.

Lemma Qle_bool_false (a b : Q) : Qle_bool a b = false <-> (b < a)%Q.
Proof.
  split; intro H.
  - apply Qnot_le_lt. intro L. apply Qle_bool_iff in L. congruence.
  - destruct (Qle_bool a b) eqn:E; [|reflexivity].
    apply Qle_bool_iff in E. exfalso. apply (Qlt_not_le _ _ H E).
Qed.

(** Turn the boolean tests on rationals in the context and the goal into
    propositions. *)
Ltac q_reflect :=
  repeat match goal with
    | H : Qltb _ _ = true |- _ => apply Qltb_lt in H
    | H : Qltb _ _ = false |- _ => apply Qltb_ge in H
    | H : Qeq_bool _ _ = true |- _ => apply Qeq_bool_iff in H
    | H : Qeq_bool _ _ = false |- _ => apply Qeq_bool_false in H
    | H : Qle_bool _ _ = true |- _ => apply Qle_bool_iff in H
    | H : Qle_bool _ _ = false |- _ => apply Qle_bool_false in H
    | |- Qltb _ _ = true => apply Qltb_lt
    | |- Qltb _ _ = false => apply Qltb_ge
    | |- Qeq_bool _ _ = true => apply Qeq_bool_iff
    | |- Qeq_bool _ _ = false => apply Qeq_bool_false
    | |- Qle_bool _ _ = true => apply Qle_bool_iff
    | |- Qle_bool _ _ = false => apply Qle_bool_false
    end.

Lemma ltb_asym (a b : double) : (a <? b) = true -> (b <? a) = false.
Proof.
  destruct a as [p|[]|], b as [q|[]|]; simpl; try congruence.
  intro H. q_reflect. lra.
Qed.

Lemma gtb_leb (a b : double) : (a >? b) = true -> (a >=? b) = true.
Proof.
  unfold gtb, geb.
  destruct a as [p|[]|], b as [q|[]|]; simpl; try congruence.
  intro H. q_reflect. lra.
Qed.

Lemma ltb_PInf (bound : double) : (DInf false <? bound) = false.
Proof. destruct bound as [r|[]|]; reflexivity. Qed.

(** A non-negative figure over a non-negative duration gives a non-negative
    rate as soon as the rate is below some bound. *)
Lemma rate_nonneg (c d bound : double) :
  (c >=? DFin 0) = true -> (DFin 0 <=? d) = true -> (c / d <? bound) = true ->
  (DFin 0 <=? c / d) = true.
Proof.
  unfold geb.
  destruct c as [p|[]|], d as [q|[]|]; simpl; try congruence; try reflexivity.
  - intros Hp Hq. destruct (Qeq_bool q 0) eqn:Eq.
    + destruct (Qeq_bool p 0) eqn:Ep; simpl; [congruence|].
      intros _. destruct (Qltb p 0) eqn:E; [|reflexivity].
      q_reflect. lra.
    + simpl. intros _. q_reflect.
      assert (0 < q)%Q.
      { destruct (Qlt_le_dec 0 q) as [L|L]; [exact L|].
        exfalso. apply Eq. apply Qle_antisym; assumption. }
      apply Qle_shift_div_l; lra.
  - intros _ Hq _. destruct (Qltb q 0) eqn:E; [|reflexivity].
    q_reflect. lra.
Qed.

(** ** Properties of the engines *)

(** *** Queries without a forecast *)

(** C7. For a Charge, an Exchange and an Idle engine, in every state of the
    engine and of the world, [getOverallDuration()] and [getRemainingTime()]
    raise a [cRuntimeError]; no number is returned. *)
Theorem no_forecast_always_fails
    (K : Collaborators) (c : ChargeCEE) (x : ExchangeCEE) (i : IdleCEE) (w : World) :
  getOverallDuration K (Charge c)
    = Fail (cRuntimeError "ChargeCEE has no determined ending time")
  /\ getRemainingTime K (Charge c) w
    = Fail (cRuntimeError "ChargeCEE has no determined ending time")
  /\ getOverallDuration K (Exchange x)
    = Fail (cRuntimeError "ExchangeCEE has no determined ending time")
  /\ getRemainingTime K (Exchange x) w
    = Fail (cRuntimeError "ExchangeCEE has no determined ending time")
  /\ getOverallDuration K (Idle i)
    = Fail (cRuntimeError "IdleCEE has no determined ending time")
  /\ getRemainingTime K (Idle i) w
    = Fail (cRuntimeError "IdleCEE has no determined ending time").
Proof. repeat split. Qed.

(** *** The frame of [ChargeCEE::updateState] *)

(** C9. For a Charge engine and every elapsed time [stepSize],
    [updateState(stepSize)] returns the engine and the world as they were:
    position, orientation, speed and battery of the agent, its queue, the
    clock and the engine's own fields are all unchanged. *)
Theorem ChargeCEE_updateState_changes_nothing
    (K : Collaborators) (this : ChargeCEE) (stepSize : double) (w : World) :
  ChargeCEE_updateState this stepSize w = (this, w)
  /\ updateState K (Charge this) stepSize w = (Charge this, w).
Proof. split; reflexivity. Qed.

(** *** A leg of no length *)

(** C10. When the distance from origin to target of a Waypoint engine is
    below 1e-10, [getProbableConsumption(normalized, fromMethod)] returns
    exactly 0 for all arguments and whatever the consumption model of the
    agent would answer: the model, the division by the duration and the
    assertion are not reached. *)
Theorem WaypointCEE_short_leg_consumes_nothing
    (K : Collaborators) (this : WaypointCEE) (w : World)
    (normalized : bool) (fromMethod : Z) :
  (legDistance K this <? eps) = true ->
  WaypointCEE_getProbableConsumption K this w normalized fromMethod = Ok (DFin 0).
Proof.
  unfold legDistance, WaypointCEE_getProbableConsumption. cbv zeta.
  intros ->. reflexivity.
Qed.

(** A leg from the origin to the origin, with a consumption model that would
    not pass the assertion. *)
Lemma WaypointCEE_short_leg_witness :
  let this :=
    new_WaypointCEE Scenario.faulty Scenario.agent
      (mkWaypointCommand (DFin 0) (DFin 0) (DFin 0)) in
  (legDistance Scenario.faulty this <? eps) = true
  /\ WaypointCEE_getProbableConsumption Scenario.faulty this
       (Scenario.world 0 Scenario.agent) false 2 = Ok (DFin 0).
Proof.
  split; [reflexivity|].
  apply WaypointCEE_short_leg_consumes_nothing. reflexivity.
Defined.

(** *** HoldPosition: the deadline *)

(** C5. A HoldPosition engine whose command asks for [d] seconds, initialized
    at time [t0], gets the deadline [t0 + d].  From then on, at every clock
    reading: [isCommandCompleted()] raises a [cRuntimeError] when the clock
    is strictly past the deadline; otherwise it returns true exactly when the
    latch is set or the clock equals the deadline, so false at an earlier
    time with the latch unset; [getOverallDuration()] returns [d] and
    [getRemainingTime()] the deadline minus the clock. *)
Theorem HoldPositionCEE_deadline
    (K : Collaborators) (this0 : HoldPositionCEE) (w0 : World)
    (command : HoldPositionCommand) (d : Q) :
  hp_command this0 = Some command ->
  hpc_getHoldSeconds command = DFin d ->
  exists this w1,
    HoldPositionCEE_initializeCEE K this0 w0 = Ok (this, w1)
    /\ holdPositionTill this = (simTime w0 + d)%Q
    /\ commandCompleted (hp_base this) = commandCompleted (hp_base this0)
    /\ HoldPositionCEE_getOverallDuration this = Ok (DFin d)
    /\ forall w : World,
        HoldPositionCEE_getRemainingTime this w
          = DFin (holdPositionTill this - simTime w)
        /\ ((holdPositionTill this < simTime w)%Q ->
            HoldPositionCEE_isCommandCompleted this w
              = Fail (cRuntimeError
                        "Unexpected situation: HoldPosition lasted longer than intended."))
        /\ ((simTime w <= holdPositionTill this)%Q ->
            exists done,
              HoldPositionCEE_isCommandCompleted this w = Ok done
              /\ (done = true <->
                  commandCompleted (hp_base this) = true
                  \/ (simTime w == holdPositionTill this)%Q))
        /\ ((simTime w < holdPositionTill this)%Q ->
            commandCompleted (hp_base this) = false ->
            HoldPositionCEE_isCommandCompleted this w = Ok false).
Proof.
  intros Hc Hd.
  unfold HoldPositionCEE_initializeCEE. rewrite Hc, Hd. simpl.
  destruct (predictNormConsumptionRandom K _ _ _) as [rate r].
  eexists. eexists. split; [reflexivity|].
  split; [reflexivity|]. split; [reflexivity|].
  split; [unfold HoldPositionCEE_getOverallDuration; simpl; rewrite Hd; reflexivity|].
  intro w. unfold HoldPositionCEE_isCommandCompleted, HoldPositionCEE_getRemainingTime.
  simpl. set (till := (simTime w0 + d)%Q).
  split; [reflexivity|]. split; [|split].
  - intro L. apply Qltb_lt in L. rewrite L. reflexivity.
  - intro L. apply Qltb_ge in L. rewrite L.
    eexists. split; [reflexivity|].
    destruct (commandCompleted (hp_base this0)); simpl.
    + split; auto.
    + destruct (Qeq_bool (simTime w) till) eqn:E; q_reflect.
      * split; auto.
      * split; [congruence|]. intros [H|H]; [congruence|contradiction].
  - intros L Hl.
    assert (G : Qltb till (simTime w) = false) by (apply Qltb_ge; lra).
    rewrite G, Hl. simpl.
    assert (E : Qeq_bool (simTime w) till = false).
    { apply Qeq_bool_false. intro E. rewrite E in L. apply (Qlt_irrefl _ L). }
    rewrite E. reflexivity.
Qed.

(** Thirty seconds of holding, started at time 100. *)
Lemma HoldPositionCEE_deadline_witness :
  let command := mkHoldPositionCommand (DFin 0) (DFin 0) (DFin 0) (DFin 30) in
  let this0 := new_HoldPositionCEE Scenario.K Scenario.agent command in
  exists this w1,
    HoldPositionCEE_initializeCEE Scenario.K this0 (Scenario.world 100 Scenario.agent)
      = Ok (this, w1)
    /\ holdPositionTill this = (100 + 30)%Q
    /\ HoldPositionCEE_getOverallDuration this = Ok (DFin 30)
    /\ HoldPositionCEE_getRemainingTime this w1 = DFin (100 + 30 - 100)
    /\ HoldPositionCEE_isCommandCompleted this (atTime w1 129) = Ok false
    /\ HoldPositionCEE_isCommandCompleted this (atTime w1 130) = Ok true.
Proof.
  intros command this0.
  destruct (HoldPositionCEE_deadline Scenario.K this0
              (Scenario.world 100 Scenario.agent) command 30 eq_refl eq_refl)
    as (this & w1 & Hi & Ht & _ & Hd & _).
  exists this, w1.
  split; [exact Hi|]. split; [exact Ht|]. split; [exact Hd|].
  vm_compute in Hi. injection Hi as <- <-.
  repeat split.
Defined.

(** *** Charge: energy gained *)

Lemma gain_positive (e1 e0 : double) : (e1 - e0 >? DFin 0) = (e1 >? e0).
Proof.
  unfold gtb, sub.
  destruct e1 as [p|[]|], e0 as [q|[]|]; simpl; try reflexivity.
  destruct (Qltb q p) eqn:E; q_reflect; lra.
Qed.

Lemma round_half_even_nonneg (x y : Z) :
  (0 <= x)%Z -> (0 < y)%Z -> (0 <= round_half_even x y)%Z.
Proof.
  intros Hx Hy. unfold round_half_even.
  pose proof (Z.div_pos x y Hx Hy) as D.
  destruct (2 * (x mod y) ?= y)%Z; [destruct (Z.even (x / y))|..]; lia.
Qed.

Lemma nearest_float_nonneg (n d : positive) : (DFin 0 <=? nearest_float n d) = true.
Proof.
  unfold nearest_float. cbv zeta.
  set (ulp := Z.max (log2_floor n d - 23) (-149)).
  set (m := round_half_even _ _).
  destruct (Qle_bool _ _); [reflexivity|].
  cbn [leb]. apply Qle_bool_iff. rewrite Qred_correct.
  assert (Hm : (0 <= m)%Z).
  { apply round_half_even_nonneg.
    - apply Z.shiftl_nonneg. lia.
    - rewrite Z.shiftl_mul_pow2 by lia.
      apply Z.mul_pos_pos; [lia|]. apply Z.pow_pos_nonneg; lia. }
  assert (Hv : (0 <= m * 2 ^ Z.max 0 ulp)%Z).
  { apply Z.mul_nonneg_nonneg; [exact Hm|]. apply Z.pow_nonneg. lia. }
  unfold Qle. cbn [Qnum Qden]. lia.
Qed.

(** Narrowing keeps the sign: a [float] above 0 comes from a [double]
    above 0. *)
Lemma toFloat_positive (a : double) :
  (toFloat a >? DFin 0) = true -> (a >? DFin 0) = true.
Proof.
  unfold gtb. destruct a as [q|[]|]; cbn [toFloat]; try (intro H; exact H).
  destruct q as [num den]. cbn [Qnum Qden].
  destruct num as [|n|n].
  - cbn. discriminate.
  - intros _. cbn [ltb]. apply Qltb_lt. unfold Qlt. cbn. lia.
  - pose proof (nearest_float_nonneg n den) as N.
    destruct (nearest_float n den) as [v|[]|]; cbn in N |- *; try discriminate.
    intro H. q_reflect. lra.
Qed.

Lemma gtb_same (a b c : double) : same a b -> (a >? c) = (b >? c).
Proof.
  unfold gtb.
  destruct a as [p|[]|], b as [q|[]|]; cbn [same]; try contradiction;
    try discriminate; try reflexivity.
  intro E. destruct c as [r|[]|]; cbn [ltb]; try reflexivity.
  destruct (Qltb r q) eqn:L; q_reflect; lra.
Qed.

Lemma minus_one_times_same (a b : double) :
  same a b -> same (DFin (-1 # 1) * a) (- b).
Proof.
  destruct a as [p|[]|], b as [q|[]|]; cbn [same]; try contradiction;
    try discriminate; try (intros _; reflexivity).
  intro E. cbn. lra.
Qed.

(** C6, as stated, fails: the gain is stored in a [float] before it is
    tested and negated.  With 1000 mAh at the start and 1600.1 mAh now the
    call returns -600.0999755859375, not -600.1; with an empty battery at
    the start and 1e-46 mAh now the energy has increased, yet the narrowed
    gain is 0 and the assertion stops the call. *)
Lemma ChargeCEE_getConsumptionTotal_rounds_the_gain :
  isActive Scenario.K (Charge Scenario.charging) = true
  /\ batteryRemainingExecutionStart Scenario.charging = DFin 1000
  /\ ChargeCEE_getConsumptionTotal Scenario.K Scenario.charging
       (Scenario.charged (DFin (16001 # 10)))
     = Ok (DFin (-4916019 # 8192))
  /\ ~ same (DFin (-4916019 # 8192)) (- (DFin (16001 # 10) - DFin 1000))
  /\ isActive Scenario.K (Charge Scenario.chargingFromFlat) = true
  /\ batteryRemainingExecutionStart Scenario.chargingFromFlat = DFin 0
  /\ (DFin (1 # 10 ^ 46) >? DFin 0) = true
  /\ ChargeCEE_getConsumptionTotal Scenario.K Scenario.chargingFromFlat
       (Scenario.charged (DFin (1 # 10 ^ 46)))
     = Fail (AssertionFailed "difference > 0").
Proof.
  repeat split; try (vm_compute; reflexivity).
  vm_compute. discriminate.
Qed.

(** C6 (amended). [ChargeCEE::getConsumptionTotal()] raises a
    [cRuntimeError] while the engine is not active.  Once it is active, with
    [E0] the stored energy recorded by [setNodeParameters()] and [E1] the
    energy the battery holds now, the call narrows the gain [E1 - E0] to
    single precision and asserts that the narrowed gain is above 0, which
    implies [E1 > E0]; it then returns the negative of the narrowed gain,
    and otherwise the assertion stops the call.  When the gain is a number
    single precision holds exactly, the assertion is [E1 > E0] and the value
    returned is [-(E1 - E0)]. *)
Theorem ChargeCEE_getConsumptionTotal_narrowed
    (K : Collaborators) (this : ChargeCEE) (w : World) :
  let E0 := batteryRemainingExecutionStart this in
  let E1 := getRemaining (battery (node w)) in
  let gain := toFloat (E1 - E0) in
  (forall w0 : World,
      batteryRemainingExecutionStart (fst (ChargeCEE_setNodeParameters K this w0))
        = getRemaining (battery (node w0)))
  /\ (isActive K (Charge this) = false ->
      ChargeCEE_getConsumptionTotal K this w
        = Fail (cRuntimeError "getDuration(): CEE not yet started"))
  /\ (isActive K (Charge this) = true ->
      ((gain >? DFin 0) = true ->
       ChargeCEE_getConsumptionTotal K this w = Ok (DFin (-1 # 1) * gain)
       /\ (E1 >? E0) = true)
      /\ ((gain >? DFin 0) = false ->
          ChargeCEE_getConsumptionTotal K this w = Fail (AssertionFailed "difference > 0"))
      /\ (same gain (E1 - E0) ->
          ((E1 >? E0) = true ->
           exists v, ChargeCEE_getConsumptionTotal K this w = Ok v
                     /\ same v (- (E1 - E0)))
          /\ ((E1 >? E0) = false ->
              ChargeCEE_getConsumptionTotal K this w
                = Fail (AssertionFailed "difference > 0")))).
Proof.
  intros E0 E1 gain. unfold ChargeCEE_getConsumptionTotal. fold E0 E1. fold gain.
  split; [intro w0; reflexivity|]. split.
  - intros ->. reflexivity.
  - intros ->. cbv [negb]. cbv zeta. split; [|split].
    + intro G. rewrite G. split; [reflexivity|].
      rewrite <- gain_positive. apply toFloat_positive. exact G.
    + intros ->. reflexivity.
    + intro S. rewrite (gtb_same _ _ (DFin 0) S), gain_positive.
      split; intros ->; cbn [ASSERT bind].
      * eexists. split; [reflexivity|]. apply minus_one_times_same. exact S.
      * reflexivity.
Qed.

(** A charge started at time 5 with 1000 mAh stored; 1600 mAh at time 65. *)
Lemma ChargeCEE_getConsumptionTotal_narrowed_witness :
  isActive Scenario.K (Charge Scenario.charging) = true
  /\ batteryRemainingExecutionStart Scenario.charging = DFin 1000
  /\ exists v,
      ChargeCEE_getConsumptionTotal Scenario.K Scenario.charging
        (Scenario.charged (DFin 1600)) = Ok v
      /\ same v (- (DFin 1600 - DFin 1000)).
Proof.
  split; [reflexivity|]. split; [reflexivity|].
  refine (proj1 (proj2 (proj2 (proj2 (proj2
            (ChargeCEE_getConsumptionTotal_narrowed Scenario.K Scenario.charging
               (Scenario.charged (DFin 1600)))) eq_refl)) _) _).
  - vm_compute. reflexivity.
  - reflexivity.
Defined.

(** *** Takeoff: a vertical leg *)

(** C8. After [TakeoffCEE::initializeCEE()] the pitch is 0, the climb angle is
    +90 when the target altitude is above the origin altitude and -90 when it
    is below, and the speed is the one the agent resolves for that climb
    angle; for a takeoff from altitude 0 to altitude 10 the climb angle is
    +90 and [getOverallDuration()] is 10 divided by that speed. *)
Theorem TakeoffCEE_vertical_leg
    (K : Collaborators) (this : TakeoffCEE) (w : World) :
  let this' := fst (TakeoffCEE_initializeCEE K this w) in
  let b := tk_base this' in
  pitch b = DFin 0
  /\ speed b = getSpeed K (node w) (climbAngle b)
  /\ z0 b = z0 (tk_base this) /\ z1 b = z1 (tk_base this)
  /\ ((z1 b >? z0 b) = true -> climbAngle b = DFin 90)
  /\ ((z1 b <? z0 b) = true -> climbAngle b = DFin (-90 # 1))
  /\ (z0 b = DFin 0 -> z1 b = DFin 10 ->
      climbAngle b = DFin 90
      /\ TakeoffCEE_getOverallDuration this' = DFin 10 / getSpeed K (node w) (DFin 90)).
Proof.
  unfold TakeoffCEE_initializeCEE.
  destruct (predictNormConsumptionRandom K _ _ _) as [rate r]. simpl.
  repeat split.
  - intros ->. reflexivity.
  - intro H. apply ltb_asym in H. unfold gtb. rewrite H. reflexivity.
  - rewrite H, H0. reflexivity.
  - unfold TakeoffCEE_getOverallDuration. simpl. rewrite H, H0. reflexivity.
Qed.

(** A takeoff from the ground to 10 m at 2 m/s. *)
Lemma TakeoffCEE_vertical_leg_witness :
  let K := Scenario.K in
  let this := new_TakeoffCEE K Scenario.agent (mkTakeoffCommand (DFin 10)) in
  let this' := fst (TakeoffCEE_initializeCEE K this (Scenario.world 0 Scenario.agent)) in
  climbAngle (tk_base this') = DFin 90
  /\ TakeoffCEE_getOverallDuration this' = DFin 10 / DFin 2.
Proof.
  intros K this this'.
  exact (proj2 (proj2 (proj2 (proj2 (proj2 (proj2
           (TakeoffCEE_vertical_leg K this (Scenario.world 0 Scenario.agent)))))))
           eq_refl eq_refl).
Defined.

(** *** Completion, asked again *)

(** C1, as stated, fails for HoldPosition: the engine of [Scenario.hold30s],
    initialized at time 0, reports completion at time 30; asked again at
    time 31, with engine and agent untouched, it raises an error instead of
    returning true, and it does so even when its latch is set. *)
Lemma HoldPositionCEE_completion_lost_past_deadline :
  HoldPositionCEE_initializeCEE Scenario.K
    (new_HoldPositionCEE Scenario.K Scenario.agent Scenario.hold30s)
    (Scenario.world 0 Scenario.agent)
    = Ok (Scenario.holding, mkWorld 0 Scenario.agent 1%N)
  /\ isCommandCompleted Scenario.K (HoldPosition Scenario.holding)
       (Scenario.world 30 Scenario.agent) = Ok true
  /\ isCommandCompleted Scenario.K (HoldPosition Scenario.holding)
       (Scenario.world 31 Scenario.agent)
     = Fail (cRuntimeError "Unexpected situation: HoldPosition lasted longer than intended.")
  /\ isCommandCompleted Scenario.K (HoldPosition Scenario.latched)
       (Scenario.world 30 Scenario.agent) = Ok true
  /\ isCommandCompleted Scenario.K (HoldPosition Scenario.latched)
       (Scenario.world 31 Scenario.agent)
     = Fail (cRuntimeError "Unexpected situation: HoldPosition lasted longer than intended.").
Proof. repeat split. Qed.

(** C1 (amended). Once [isCommandCompleted()] has returned true, a later call
    on the same engine and the same agent state, at the same or a later clock
    reading, returns true again for every engine variant, except that a
    HoldPosition engine raises its [cRuntimeError] when the clock has passed
    its deadline. *)
Theorem isCommandCompleted_stays_true
    (K : Collaborators) (e : CEE) (w w' : World) :
  node w' = node w ->
  (simTime w <= simTime w')%Q ->
  isCommandCompleted K e w = Ok true ->
  isCommandCompleted K e w'
    = if deadlinePassed e w'
      then Fail (cRuntimeError
                   "Unexpected situation: HoldPosition lasted longer than intended.")
      else Ok true.
Proof.
  intros Hn Ht.
  destruct e as [e|e|e|e|e|e]; simpl;
    unfold WaypointCEE_isCommandCompleted, TakeoffCEE_isCommandCompleted,
      HoldPositionCEE_isCommandCompleted, ChargeCEE_isCommandCompleted,
      ExchangeCEE_isCommandCompleted, IdleCEE_isCommandCompleted;
    rewrite ?Hn; try (intro H; exact H).
  destruct (Qltb (holdPositionTill e) (simTime w)) eqn:L; [discriminate|].
  intro H. destruct (Qltb (holdPositionTill e) (simTime w')) eqn:L'; [reflexivity|].
  destruct (commandCompleted (hp_base e)); [reflexivity|]. simpl in *.
  destruct (Qeq_bool (simTime w) (holdPositionTill e)) eqn:E; [|discriminate].
  assert (E' : Qeq_bool (simTime w') (holdPositionTill e) = true).
  { q_reflect. apply Qle_antisym; [assumption|]. rewrite <- E. assumption. }
  rewrite E'. reflexivity.
Qed.

(** A latched HoldPosition engine, asked at times 10 and 20, before its
    deadline 30. *)
Lemma isCommandCompleted_stays_true_witness :
  isCommandCompleted Scenario.K (HoldPosition Scenario.latched)
    (Scenario.world 10 Scenario.agent) = Ok true
  /\ isCommandCompleted Scenario.K (HoldPosition Scenario.latched)
       (Scenario.world 20 Scenario.agent) = Ok true.
Proof.
  split; [reflexivity|].
  apply (isCommandCompleted_stays_true Scenario.K (HoldPosition Scenario.latched)
           (Scenario.world 10 Scenario.agent) (Scenario.world 20 Scenario.agent)).
  - reflexivity.
  - vm_compute. discriminate.
  - reflexivity.
Defined.

(** *** Initialization and the bound command *)

(** C2, as stated, fails: a Charge engine and an Idle engine built without a
    command are initialized without any error. *)
Lemma initializeCEE_succeeds_without_command :
  hasCommand (Charge (new_ChargeCEE Scenario.K Scenario.agent None)) = false
  /\ initializeCEE Scenario.K (Charge (new_ChargeCEE Scenario.K Scenario.agent None))
       (Scenario.world 0 Scenario.agent)
     = Ok (Charge (new_ChargeCEE Scenario.K Scenario.agent None),
           Scenario.world 0 Scenario.agent)
  /\ hasCommand (Idle (new_IdleCEE Scenario.K Scenario.agent None)) = false
  /\ initializeCEE Scenario.K (Idle (new_IdleCEE Scenario.K Scenario.agent None))
       (Scenario.world 0 Scenario.agent)
     = Ok (Idle (new_IdleCEE Scenario.K Scenario.agent None),
           Scenario.world 0 Scenario.agent).
Proof. repeat split. Qed.

(** C2 (amended). [WaypointCEE::initializeCEE()] raises a [cRuntimeError] when
    the command is absent.  Every engine whose command is present (and, for
    HoldPosition, asks for a finite duration) is initialized successfully and
    stays of its type; a Waypoint engine then has pitch = -climb angle and
    the speed the agent resolves for its climb angle.  Takeoff, Charge,
    Exchange and Idle do not look at the command: they are initialized
    successfully also when it is absent. *)
Theorem initializeCEE_and_the_command (K : Collaborators) (e : CEE) (w : World) :
  (getType e = WAYPOINT -> hasCommand e = false ->
   initializeCEE K e w = Fail (cRuntimeError "initializeCEE(): Command missing."))
  /\ (hasCommand e = true -> finiteHold e = true ->
      exists e' w',
        initializeCEE K e w = Ok (e', w')
        /\ getType e' = getType e
        /\ node w' = node w
        /\ (getType e = WAYPOINT ->
            pitch (base e') = DFin (-1 # 1) * climbAngle (base e')
            /\ speed (base e') = getSpeed K (node w) (climbAngle (base e'))))
  /\ (ignoresCommand (getType e) = true ->
      exists e' w',
        initializeCEE K e w = Ok (e', w') /\ getType e' = getType e /\ node w' = node w).
Proof.
  split; [|split].
  - destruct e as [e|e|e|e|e|e]; simpl; try discriminate.
    intros _. unfold WaypointCEE_initializeCEE.
    destruct (wp_command e); [discriminate|reflexivity].
  - destruct e as [e|e|e|e|e|e]; simpl.
    + unfold WaypointCEE_initializeCEE.
      destruct (wp_command e); [|discriminate]. intros _ _.
      destruct (predictNormConsumptionRandom K _ _ _) as [rate r]. simpl.
      eexists. eexists. split; [reflexivity|].
      split; [reflexivity|]. split; [reflexivity|].
      intros _. split; reflexivity.
    + intros _ _. unfold TakeoffCEE_initializeCEE.
      destruct (predictNormConsumptionRandom K _ _ _) as [rate r].
      eexists. eexists. split; [reflexivity|]. repeat split; discriminate.
    + unfold HoldPositionCEE_initializeCEE.
      destruct (hp_command e) as [c|]; [|discriminate]. intros _.
      destruct (hpc_getHoldSeconds c) as [q| |]; try discriminate. intros _. simpl.
      destruct (predictNormConsumptionRandom K _ _ _) as [rate r]. simpl.
      eexists. eexists. split; [reflexivity|]. repeat split; discriminate.
    + intros _ _. eexists. eexists. split; [reflexivity|]. repeat split; discriminate.
    + intros _ _. unfold ExchangeCEE_initializeCEE.
      destruct (predictNormConsumptionRandom K _ _ _) as [rate r].
      eexists. eexists. split; [reflexivity|]. repeat split; discriminate.
    + intros _ _. eexists. eexists. split; [reflexivity|]. repeat split; discriminate.
  - destruct e as [e|e|e|e|e|e]; simpl; try discriminate; intros _.
    + unfold TakeoffCEE_initializeCEE.
      destruct (predictNormConsumptionRandom K _ _ _) as [rate r].
      eexists. eexists. repeat split.
    + eexists. eexists. repeat split.
    + unfold ExchangeCEE_initializeCEE.
      destruct (predictNormConsumptionRandom K _ _ _) as [rate r].
      eexists. eexists. repeat split.
    + eexists. eexists. repeat split.
Qed.

(** A Waypoint engine towards (3, 4, 0). *)
Lemma initializeCEE_and_the_command_witness :
  let K := Scenario.K in
  let e := Waypoint (new_WaypointCEE K Scenario.agent
                       (mkWaypointCommand (DFin 3) (DFin 4) (DFin 0))) in
  hasCommand e = true
  /\ exists e' w',
      initializeCEE K e (Scenario.world 0 Scenario.agent) = Ok (e', w')
      /\ getType e' = WAYPOINT
      /\ speed (base e') = DFin 2.
Proof.
  intros K e. split; [reflexivity|].
  destruct (proj1 (proj2 (initializeCEE_and_the_command K e
                            (Scenario.world 0 Scenario.agent))) eq_refl eq_refl)
    as (e' & w' & Hi & Ht & _ & Hk).
  exists e', w'. split; [exact Hi|]. split; [exact Ht|].
  exact (proj2 (Hk eq_refl)).
Defined.

(** *** The sanity bound on consumption *)

Lemma asserted_implies_bound (c d : double) :
  (DFin 0 <=? d) = true ->
  (c >=? DFin 0) && (c / d <? DFin 1000) = true ->
  withinSanityBound c d = true.
Proof.
  intros Hd H. apply andb_true_iff in H. destruct H as [Hc Hr].
  unfold withinSanityBound. rewrite Hr, (rate_nonneg c d _ Hc Hd Hr). reflexivity.
Qed.

Lemma asserted_strict_implies_bound (c d : double) :
  (DFin 0 <=? d) = true ->
  (c >? DFin 0) && (c / d <? DFin 1000) = true ->
  withinSanityBound c d = true.
Proof.
  intros Hd H. apply asserted_implies_bound; [exact Hd|].
  apply andb_true_iff in H. destruct H as [Hc Hr].
  rewrite (gtb_leb _ _ Hc), Hr. reflexivity.
Qed.

(** What is left of [getProbableConsumption()] once the model has answered. *)
Ltac after_assert Hd lemma :=
  match goal with
  | |- context [ASSERT ?cond ?text] =>
      let A := fresh "A" in
      destruct cond eqn:A; cbv beta iota delta [ASSERT bind];
      [ apply (lemma _ _ Hd) in A; split;
        [ intros v Hv; split; [exact A|];
          repeat match goal with
            | H : context [if ?b then _ else _] |- _ => destruct b
            end;
          injection Hv as <-; auto
        | intro B; congruence ]
      | split; [ intros v Hv; discriminate | intros _; eexists; reflexivity ] ]
  end.

(** C3. Whenever an engine consults the consumption model, on a leg whose
    duration is not negative, [getProbableConsumption()] returns a value only
    if the figure [c] of the model and the duration [d] satisfy
    [0 <= c / d < 1000], and the value is then [c / d] or [c]; a figure
    outside the bound makes the call fail instead of returning.  An engine
    that answers without consulting the model answers 0. *)
Theorem getProbableConsumption_sanity_bound
    (K : Collaborators) (e : CEE) (w : World) (normalized : bool) (fromMethod : Z) :
  (forecastBasis K e w fromMethod = None ->
   forall v, getProbableConsumption K e w normalized fromMethod = Ok v -> v = DFin 0)
  /\ (forall c d,
        forecastBasis K e w fromMethod = Some (c, d) ->
        (DFin 0 <=? d) = true ->
        (forall v,
            getProbableConsumption K e w normalized fromMethod = Ok v ->
            withinSanityBound c d = true /\ (v = c / d \/ v = c))
        /\ (withinSanityBound c d = false ->
            exists f, getProbableConsumption K e w normalized fromMethod = Fail f)).
Proof.
  destruct e as [e|e|e|e|e|e];
    cbv beta iota delta [getProbableConsumption forecastBasis].
  - unfold WaypointCEE_getProbableConsumption, legDistance. cbv zeta.
    destruct (_ <? eps); split.
    + intros _ v Hv. congruence.
    + intros c d H. discriminate H.
    + intro H. discriminate H.
    + intros c d H Hd. injection H as <- <-.
      after_assert Hd asserted_strict_implies_bound.
  - unfold TakeoffCEE_getProbableConsumption. cbv zeta.
    split; [intro H; discriminate H|]. intros c d H Hd. injection H as <- <-.
    after_assert Hd asserted_implies_bound.
  - unfold HoldPositionCEE_getProbableConsumption.
    destruct (hp_command e) as [command|]; split.
    + intro H. discriminate H.
    + intros c d H Hd. injection H as <- <-.
      after_assert Hd asserted_implies_bound.
    + intros _ v Hv. discriminate Hv.
    + intros c d H. discriminate H.
  - split; [|intros c d H; discriminate H]. intros _ v Hv.
    injection Hv as <-. reflexivity.
  - unfold ExchangeCEE_getProbableConsumption. cbv zeta.
    split; [intro H; discriminate H|]. intros c d H Hd. injection H as <- <-.
    after_assert Hd asserted_implies_bound.
  - split; [|intros c d H; discriminate H]. intros _ v Hv.
    injection Hv as <-. reflexivity.
Qed.

(** The takeoff to 10 m: 25 mAh over 5 s. *)
Lemma getProbableConsumption_sanity_bound_witness :
  let K := Scenario.K in
  let w := Scenario.world 0 Scenario.agent in
  let e := Takeoff (fst (TakeoffCEE_initializeCEE K
                           (new_TakeoffCEE K Scenario.agent (mkTakeoffCommand (DFin 10))) w)) in
  let d := DFin 10 / DFin 2 in
  let c := DFin 5 * d in
  forecastBasis K e w 0 = Some (c, d)
  /\ (DFin 0 <=? d) = true
  /\ getProbableConsumption K e w true 0 = Ok (c / d)
  /\ withinSanityBound c d = true.
Proof.
  intros K w e d c.
  split; [reflexivity|]. split; [reflexivity|]. split; [reflexivity|].
  exact (proj1 (proj1 (proj2 (getProbableConsumption_sanity_bound K e w true 0)
                         c d eq_refl eq_refl) (c / d) eq_refl)).
Defined.

(** The assertion of [WaypointCEE] is stricter than the bound: a figure of
    exactly 0, a rate within the bound, stops the call, where
    [TakeoffCEE] returns it. *)
Example WaypointCEE_rejects_zero_consumption :
  let K := Scenario.frugal in
  let w := Scenario.world 0 Scenario.agent in
  let flight := new_WaypointCEE K Scenario.agent (mkWaypointCommand (DFin 3) (DFin 4) (DFin 0)) in
  let climb := new_TakeoffCEE K Scenario.agent (mkTakeoffCommand (DFin 10)) in
  (r <- WaypointCEE_initializeCEE K flight w ;;
   WaypointCEE_getProbableConsumption K (fst r) (snd r) true 0)
  = Fail (AssertionFailed
            "completeConsumption > 0 && (completeConsumption / duration) < 1000")
  /\ TakeoffCEE_getProbableConsumption K (fst (TakeoffCEE_initializeCEE K climb w)) w true 0
     = Ok (DFin 0 / (DFin 10 / DFin 2)).
Proof. split; vm_compute; reflexivity. Qed.

(** *** Exchange: leaving for the charging station *)

(** C4. The exit action of an Exchange engine whose command requests a
    recharge, once the nearest station is found and the forecast of the
    flight to it is obtained, puts exactly three new engines in front of the
    queue of the agent, in the order Waypoint (to the station), Charge, Idle
    (both at the station), each flagged as not part of the mission and as
    needing no replacement, leaves the rest of the queue as it was, and sets
    the mission id to -1. *)
Theorem ExchangeCEE_exit_prepends_recharge
    (K : Collaborators) (this : ExchangeCEE) (w : World)
    (command : ExchangeCommand) (cn : ChargingNode) :
  ex_command this = Some command ->
  exc_isRechargeRequested command = true ->
  findNearestCN K (n_x (node w)) (n_y (node w)) (n_z (node w)) = Some cn ->
  exists travel w1,
    WaypointCEE_initializeCEE K (plannedTravel K (node w) cn) w = Ok (travel, w1)
    /\ forall arrival consumption,
        SimTime_plus (simTime w1) (WaypointCEE_getOverallDuration K travel) = Ok arrival ->
        WaypointCEE_getProbableConsumption K travel w1
          (defaultNormalized K) (defaultFromMethod K) = Ok consumption ->
        exists w' charge idle,
          ExchangeCEE_performExitActions K this w = Ok w'
          /\ cees (node w')
             = Waypoint travel :: Charge charge :: Idle idle :: cees (node w)
          /\ detached (Waypoint travel) = true
          /\ detached (Charge charge) = true
          /\ detached (Idle idle) = true
          /\ headsFor (Waypoint travel) cn
          /\ headsFor (Charge charge) cn
          /\ headsFor (Idle idle) cn
          /\ missionId (node w') = (-1)%Z
          /\ sent (node w')
             = sent (node w)
               ++ [(mkReserveSpotMsg "reserveSpot" arrival consumption (DFin 100), cn)].
Proof.
  intros Hc Hr Hn.
  unfold ExchangeCEE_performExitActions. rewrite Hc, Hr, Hn. cbv zeta.
  fold (plannedTravel K (node w) cn).
  assert (Hi : exists travel w1,
             WaypointCEE_initializeCEE K (plannedTravel K (node w) cn) w = Ok (travel, w1)
             /\ node w1 = node w
             /\ detached (Waypoint travel) = true
             /\ headsFor (Waypoint travel) cn).
  { unfold WaypointCEE_initializeCEE, plannedTravel. cbn [wp_command new_WaypointCEE].
    cbv zeta.
    destruct (predictNormConsumptionRandom K _ _ _) as [rate r].
    eexists. eexists. split; [reflexivity|]. repeat split. }
  destruct Hi as (travel & w1 & Hi & Hw & Hd & Hh).
  exists travel, w1. split; [exact Hi|].
  intros arrival consumption Ha Hp.
  rewrite Hi. cbn [bind]. rewrite Ha. cbn [bind]. rewrite Hp. cbn [bind].
  eexists. eexists. eexists. split; [reflexivity|].
  cbn. rewrite Hw.
  split; [reflexivity|]. split; [exact Hd|].
  repeat split; try exact (proj1 Hh); try exact (proj1 (proj2 Hh));
    try exact (proj2 (proj2 Hh)).
Qed.

(** An exchange with recharge at time 10, one Idle engine already queued. *)
Lemma ExchangeCEE_exit_prepends_recharge_witness :
  let K := Scenario.K in
  let command := mkExchangeCommand (Some 3%nat) true in
  let this := new_ExchangeCEE K Scenario.agent (Some command) in
  let queued := [Idle (new_IdleCEE K Scenario.agent None)] in
  let w := Scenario.world 10 (set_cees Scenario.agent queued) in
  exists w',
    ExchangeCEE_performExitActions K this w = Ok w'
    /\ map getType (cees (node w')) = [WAYPOINT; CHARGE; IDLE; IDLE]
    /\ map detached (cees (node w')) = [true; true; true; false]
    /\ skipn 3 (cees (node w')) = queued
    /\ missionId (node w') = (-1)%Z.
Proof.
  intros K command this queued w.
  destruct (ExchangeCEE_exit_prepends_recharge K this w command Scenario.station
              eq_refl eq_refl eq_refl) as (travel & w1 & Hi & H).
  vm_compute in Hi. injection Hi as <- <-.
  destruct (SimTime_plus _ _) as [arrival|] eqn:Ha in H;
    [|vm_compute in Ha; discriminate Ha].
  destruct (WaypointCEE_getProbableConsumption _ _ _ _ _) as [consumption|] eqn:Hp in H;
    [|vm_compute in Hp; discriminate Hp].
  destruct (H arrival consumption eq_refl eq_refl)
    as (w' & charge & idle & He & Hq & Ht & Hc & Hd & _ & _ & _ & Hm & _).
  exists w'. split; [exact He|].
  rewrite Hq. cbn [map getType skipn].
  rewrite Hc, Hd, Ht, Hm. repeat split.
Defined.

(** *** The completion latch, engine by engine *)

(** With the latch set, every engine but Takeoff reports completion (a
    HoldPosition engine as long as the clock has not passed its deadline);
    [TakeoffCEE::isCommandCompleted()] does not read the latch. *)
Lemma latch_forces_completion (K : Collaborators) (e : CEE) (w : World) :
  commandCompleted (base e) = true ->
  getType e <> TAKEOFF ->
  deadlinePassed e w = false ->
  isCommandCompleted K e w = Ok true.
Proof.
  destruct e as [e|e|e|e|e|e]; simpl; intros Hl Ht Hd;
    unfold WaypointCEE_isCommandCompleted, HoldPositionCEE_isCommandCompleted,
      ChargeCEE_isCommandCompleted, ExchangeCEE_isCommandCompleted,
      IdleCEE_isCommandCompleted;
    rewrite ?Hl, ?Hd; try reflexivity.
  contradiction.
Qed.

Example TakeoffCEE_ignores_latch :
  let K := Scenario.K in
  let this := new_TakeoffCEE K Scenario.agent (mkTakeoffCommand (DFin 10)) in
  let done := mkTakeoffCEE (setCommandCompleted (tk_base this)) (tk_command this) in
  commandCompleted (tk_base done) = true
  /\ isCommandCompleted K (Takeoff done) (Scenario.world 0 Scenario.agent) = Ok false.
Proof. split; reflexivity. Qed.

(** ** Further properties of the engines *)

(** *** What a tick leaves alone *)

Lemma updateState_once (K : Collaborators) (e : CEE) (stepSize : double) (w : World) :
  fst (updateState K e stepSize w) = e
  /\ sameButPositionAndBattery w (snd (updateState K e stepSize w)).
Proof.
  destruct e as [e|e|e|e|e|e]; simpl; split; try reflexivity;
    unfold sameButPositionAndBattery; simpl; repeat split.
  all: destruct (z1 (tk_base e) >? n_z (node w)); reflexivity.
Qed.

Lemma sameButPositionAndBattery_trans (w1 w2 w3 : World) :
  sameButPositionAndBattery w1 w2 -> sameButPositionAndBattery w2 w3 ->
  sameButPositionAndBattery w1 w3.
Proof.
  unfold sameButPositionAndBattery.
  intros (A1 & A2 & A3 & A4 & A5 & A6 & A7 & A8 & A9 & A10)
         (B1 & B2 & B3 & B4 & B5 & B6 & B7 & B8 & B9 & B10).
  repeat split; congruence.
Qed.

(** X1. Whatever the engine and however many ticks it is given,
    [updateState] never changes the engine itself, the clock, the random
    stream, the orientation and speed of the agent, its queue of engines,
    its mission id or its messages: only position and battery can move. *)
Theorem updateStates_frame
    (K : Collaborators) (steps : list double) (e : CEE) (w : World) :
  fst (updateStates K e steps w) = e
  /\ sameButPositionAndBattery w (snd (updateStates K e steps w)).
Proof.
  revert e w. induction steps as [|stepSize rest IH]; intros e w.
  - simpl. split; [reflexivity|]. unfold sameButPositionAndBattery. repeat split.
  - cbn [updateStates]. cbv zeta.
    destruct (updateState_once K e stepSize w) as [He Hw].
    rewrite He. destruct (IH e (snd (updateState K e stepSize w))) as [He' Hw'].
    split; [exact He'|].
    exact (sameButPositionAndBattery_trans _ _ _ Hw Hw').
Qed.

Lemma updateState_position (K : Collaborators) (e : CEE) (stepSize : double) (w : World) :
  getType e <> WAYPOINT ->
  n_x (node (snd (updateState K e stepSize w))) = n_x (node w)
  /\ n_y (node (snd (updateState K e stepSize w))) = n_y (node w)
  /\ (getType e <> TAKEOFF ->
      n_z (node (snd (updateState K e stepSize w))) = n_z (node w)).
Proof.
  destruct e as [e|e|e|e|e|e]; simpl; intro H; try contradiction;
    repeat split; try (intro; contradiction).
  all: destruct (z1 (tk_base e) >? n_z (node w)); reflexivity.
Qed.

(** X2. Only a Waypoint engine moves the agent horizontally and only a
    Waypoint or a Takeoff engine changes its altitude: under any run of ticks
    of a Takeoff engine x and y stay put, and under any run of ticks of a
    HoldPosition, Charge, Exchange or Idle engine the whole position does. *)
Theorem updateStates_position
    (K : Collaborators) (steps : list double) (e : CEE) (w : World) :
  getType e <> WAYPOINT ->
  n_x (node (snd (updateStates K e steps w))) = n_x (node w)
  /\ n_y (node (snd (updateStates K e steps w))) = n_y (node w)
  /\ (getType e <> TAKEOFF ->
      n_z (node (snd (updateStates K e steps w))) = n_z (node w)).
Proof.
  intro Hw. revert w. induction steps as [|stepSize rest IH]; intro w.
  - simpl. repeat split.
  - cbn [updateStates]. cbv zeta.
    rewrite (proj1 (updateState_once K e stepSize w)).
    destruct (updateState_position K e stepSize w Hw) as (Hx & Hy & Hz).
    destruct (IH (snd (updateState K e stepSize w))) as (Ix & Iy & Iz).
    split; [congruence|]. split; [congruence|].
    intro Ht. rewrite (Iz Ht). exact (Hz Ht).
Qed.

(** A climb of three ticks: the agent rises, and stays above its spot. *)
Lemma updateStates_position_witness :
  let K := Scenario.K in
  let w := Scenario.world 0 Scenario.agent in
  let climb :=
    Takeoff (fst (TakeoffCEE_initializeCEE K
                    (new_TakeoffCEE K Scenario.agent (mkTakeoffCommand (DFin 10))) w)) in
  let w' := snd (updateStates K climb [DFin 1; DFin 1; DFin (1 # 2)] w) in
  n_x (node w') = DFin 0 /\ n_y (node w') = DFin 0
  /\ same (n_z (node w')) (DFin 5).
Proof.
  intros K w climb w'.
  destruct (updateStates_position K [DFin 1; DFin 1; DFin (1 # 2)] climb w) as (Hx & Hy & _).
  - discriminate.
  - split; [exact Hx|]. split; [exact Hy|]. vm_compute. reflexivity.
Defined.

(** *** An idle agent draws nothing *)

(** X3. An Idle engine, once initialized, asks the battery at every tick of
    finite length to discharge an amount equal to 0, whatever consumption
    rate the engine held before its initialization. *)
Theorem IdleCEE_draws_nothing
    (K : Collaborators) (this : IdleCEE) (w0 w : World) (q : Q) :
  let ready := fst (IdleCEE_initializeCEE this w0) in
  exists amount,
    same amount (DFin 0)
    /\ battery (node (snd (IdleCEE_updateState K ready (DFin q) w)))
       = discharge K (battery (node w)) amount.
Proof.
  simpl. eexists. split; [|reflexivity]. simpl. ring.
Qed.

(** *** Committing the parameters to the agent *)

(** X4. [setNodeParameters()] is idempotent: called a second time at the same
    clock reading, on the engine and world the first call produced, it
    changes neither. *)
Theorem setNodeParameters_idempotent (K : Collaborators) (e : CEE) (w : World) :
  let r := setNodeParameters K e w in
  setNodeParameters K (fst r) (snd r) = r.
Proof.
  destruct w as [now n r]. destruct n. destruct e as [e|e|e|e|e|e]; reflexivity.
Qed.

(** X5. [setNodeParameters()] records the clock reading as the start of the
    execution and never touches position, battery, queue, mission id or
    messages of the agent.  It leaves the heading (yaw) alone for Takeoff,
    HoldPosition and Idle, and for Idle the whole agent; a HoldPosition,
    Charge or Exchange engine brings the agent to rest: pitch, climb angle
    and speed 0. *)
Theorem setNodeParameters_effect (K : Collaborators) (e : CEE) (w : World) :
  let e' := fst (setNodeParameters K e w) in
  let w' := snd (setNodeParameters K e w) in
  timeExecutionStart (base e') = simTime w
  /\ getType e' = getType e
  /\ simTime w' = simTime w /\ rng w' = rng w
  /\ samePosition w w'
  /\ battery (node w') = battery (node w)
  /\ cees (node w') = cees (node w)
  /\ missionId (node w') = missionId (node w)
  /\ sent (node w') = sent (node w)
  /\ (match getType e with
      | TAKEOFF | HOLDPOSITION | IDLE => n_yaw (node w') = n_yaw (node w)
      | _ => True
      end)
  /\ (match getType e with
      | HOLDPOSITION | CHARGE | EXCHANGE =>
          n_pitch (node w') = DFin 0 /\ n_climbAngle (node w') = DFin 0
          /\ n_speed (node w') = DFin 0
      | IDLE => w' = w
      | WAYPOINT | TAKEOFF =>
          n_pitch (node w') = pitch (base e)
          /\ n_climbAngle (node w') = climbAngle (base e)
          /\ n_speed (node w') = speed (base e)
      end).
Proof.
  destruct e as [e|e|e|e|e|e]; simpl; unfold samePosition; simpl; repeat split.
Qed.

(** *** The cosmetic heading *)

Lemma int_wrap_in_range (n : Z) :
  (-2147483648 <= n < 2147483648)%Z -> int_wrap n = n.
Proof.
  intro H. unfold int_wrap.
  rewrite Z.mod_small by lia. lia.
Qed.

(** X6. The heading that Charge and Exchange give the agent "to orient each
    UAV randomly" is 0 for every battery percentage an [int] product can
    hold without overflow (at most 59,652,329 in absolute value): the
    percentage is divided by 10 and multiplied by 360 before the remainder
    modulo 360 is taken.  So both engines set the yaw of the agent to 0. *)
Theorem cosmeticYaw_is_zero (K : Collaborators) (w : World) :
  (Z.abs (getRemainingPercentage K (battery (node w))) <= 59652329)%Z ->
  cosmeticYaw K (node w) = DFin 0
  /\ (forall this, n_yaw (node (snd (ChargeCEE_setNodeParameters K this w))) = DFin 0)
  /\ (forall this, n_yaw (node (snd (ExchangeCEE_setNodeParameters K this w))) = DFin 0).
Proof.
  intro H.
  assert (E : cosmeticYaw K (node w) = DFin 0).
  { unfold cosmeticYaw.
    set (p := getRemainingPercentage K (battery (node w))) in *.
    assert (B : (Z.abs (Z.quot p 10) <= 5965232)%Z).
    { rewrite <- Z.quot_abs by lia.
      rewrite Z.quot_div_nonneg by lia.
      assert (Z.abs p / Z.abs 10 < 5965233)%Z by (apply Z.div_lt_upper_bound; lia).
      lia. }
    rewrite int_wrap_in_range by lia.
    rewrite Z.rem_mul by lia. reflexivity. }
  split; [exact E|]. split; intro this; simpl; exact E.
Qed.

(** A half-charged battery: 50 percent. *)
Lemma cosmeticYaw_is_zero_witness :
  let w := Scenario.world 0 Scenario.agent in
  getRemainingPercentage Scenario.K (battery (node w)) = 50%Z
  /\ cosmeticYaw Scenario.K (node w) = DFin 0.
Proof.
  intro w. split; [reflexivity|].
  apply (cosmeticYaw_is_zero Scenario.K w). vm_compute. discriminate.
Defined.

(** *** What initialization leaves alone *)



(** *** The heading of a flight *)

Lemma M_PI_positive : exists pi : Q, M_PI = DFin pi /\ (0 < pi)%Q.
Proof. eexists. split; [reflexivity|]. reflexivity. Qed.

(** X8. When the arc tangent of the (snapped) displacement of a Waypoint
    engine is a number between -pi and pi, as [atan2] returns it, the yaw
    that [initializeCEE()] stores is a number from 0 to 360: a negative
    heading is turned by 360 degrees.  (The upper bound is stated closed:
    the sum of 360 and a negative heading too small for a [double] to
    resolve is 360 itself.) *)
Theorem WaypointCEE_yaw_range
    (K : Collaborators) (this this' : WaypointCEE) (w w' : World) (a pi : Q) :
  M_PI = DFin pi ->
  atan2 K (snapped (y1 (wp_base this) - y0 (wp_base this)))
          (snapped (x1 (wp_base this) - x0 (wp_base this))) = DFin a ->
  (- pi <= a <= pi)%Q ->
  WaypointCEE_initializeCEE K this w = Ok (this', w') ->
  exists heading : Q,
    yaw (wp_base this') = DFin heading /\ (0 <= heading <= 360)%Q.
Proof.
  intros Hpi Ha Hr.
  assert (Ppi : (0 < pi)%Q).
  { destruct M_PI_positive as (pi' & E & P). rewrite Hpi in E.
    injection E as ->. exact P. }
  unfold WaypointCEE_initializeCEE. destruct (wp_command this); [|discriminate].
  cbv zeta. fold (snapped (x1 (wp_base this) - x0 (wp_base this))).
  fold (snapped (y1 (wp_base this) - y0 (wp_base this))).
  rewrite Ha, Hpi.
  destruct (predictNormConsumptionRandom K _ _ _) as [rate r].
  intro H. injection H as <- <-. cbn [wp_base].
  unfold set_consumptionPerSecond, set_speed, set_pitch, set_climbAngle, set_yaw.
  cbn [yaw].
  assert (Nz : Qeq_bool pi 0 = false) by (apply Qeq_bool_false; lra).
  assert (Lo : (-1 <= a / pi)%Q) by (apply Qle_shift_div_l; lra).
  assert (Hi : (a / pi <= 1)%Q) by (apply Qle_shift_div_r; lra).
  cbn [div mul]. rewrite Nz. cbn [ltb mul].
  destruct (Qltb (a / pi * 180) 0) eqn:L; q_reflect.
  - eexists. split; [reflexivity|]. lra.
  - eexists. split; [reflexivity|]. lra.
Qed.

(** The flight to (3, 4, 0) heads north-east. *)
Lemma WaypointCEE_yaw_range_witness :
  let K := Scenario.K in
  let w := Scenario.world 0 Scenario.agent in
  let this := new_WaypointCEE K Scenario.agent
                (mkWaypointCommand (DFin 3) (DFin 4) (DFin 0)) in
  exists this' w' heading,
    WaypointCEE_initializeCEE K this w = Ok (this', w')
    /\ yaw (wp_base this') = DFin heading /\ (0 <= heading <= 360)%Q.
Proof.
  intros K w this.
  destruct (WaypointCEE_initializeCEE K this w) as [[this' w']|] eqn:Hi;
    [|vm_compute in Hi; discriminate Hi].
  destruct (atan2 K (snapped (y1 (wp_base this) - y0 (wp_base this)))
                    (snapped (x1 (wp_base this) - x0 (wp_base this))))
    as [a| |] eqn:Ha; try (vm_compute in Ha; discriminate Ha).
  destruct (WaypointCEE_yaw_range K this this' w w' a _ eq_refl Ha) as (h & Hy & Hh).
  - vm_compute in Ha. injection Ha as <-. split; vm_compute; discriminate.
  - exact Hi.
  - exists this', w', h. split; [reflexivity|]. split; [exact Hy | exact Hh].
Defined.

(** *** Durations *)

Lemma WaypointCEE_initializeCEE_keeps
    (K : Collaborators) (this this' : WaypointCEE) (w w' : World) :
  WaypointCEE_initializeCEE K this w = Ok (this', w') ->
  node w' = node w
  /\ x0 (wp_base this') = x0 (wp_base this) /\ y0 (wp_base this') = y0 (wp_base this)
  /\ z0 (wp_base this') = z0 (wp_base this)
  /\ x1 (wp_base this') = x1 (wp_base this) /\ y1 (wp_base this') = y1 (wp_base this)
  /\ z1 (wp_base this') = z1 (wp_base this).
Proof.
  unfold WaypointCEE_initializeCEE. destruct (wp_command this); [|discriminate].
  cbv zeta. destruct (predictNormConsumptionRandom K _ _ _) as [rate r].
  intro H. injection H as <- <-. repeat split.
Qed.

(** X9. For an engine built on the agent and initialized before the agent
    has moved, the remaining time is the overall duration: the same double
    for Waypoint and Takeoff, and for HoldPosition the hold duration. *)
Theorem fresh_engine_remaining_is_overall (K : Collaborators) (w : World) :
  (forall command this w',
      WaypointCEE_initializeCEE K (new_WaypointCEE K (node w) command) w = Ok (this, w') ->
      WaypointCEE_getRemainingTime K this w' = WaypointCEE_getOverallDuration K this)
  /\ (forall command,
        let r := TakeoffCEE_initializeCEE K (new_TakeoffCEE K (node w) command) w in
        TakeoffCEE_getRemainingTime (fst r) (snd r) = TakeoffCEE_getOverallDuration (fst r))
  /\ (forall command this w' d,
        HoldPositionCEE_initializeCEE K (new_HoldPositionCEE K (node w) command) w
          = Ok (this, w') ->
        HoldPositionCEE_getOverallDuration this = Ok d ->
        same (HoldPositionCEE_getRemainingTime this w') d).
Proof.
  split; [|split].
  - intros command this w' Hi.
    destruct (WaypointCEE_initializeCEE_keeps K _ this w w' Hi)
      as (Hn & Hx0 & Hy0 & Hz0 & _).
    unfold WaypointCEE_getRemainingTime, WaypointCEE_getOverallDuration. cbv zeta.
    rewrite Hn, Hx0, Hy0, Hz0. reflexivity.
  - intro command. unfold TakeoffCEE_initializeCEE. cbv zeta.
    destruct (predictNormConsumptionRandom K _ _ _) as [rate r]. reflexivity.
  - intros command this w' d. unfold HoldPositionCEE_initializeCEE.
    cbn [hp_command new_HoldPositionCEE]. cbv zeta.
    destruct (hpc_getHoldSeconds command) as [q| |] eqn:Hq; try discriminate.
    cbn [SimTime_plus bind].
    destruct (predictNormConsumptionRandom K _ _ _) as [rate r].
    intro H. injection H as <- <-.
    unfold HoldPositionCEE_getOverallDuration. cbn [hp_command]. rewrite Hq.
    intro H. injection H as <-.
    unfold HoldPositionCEE_getRemainingTime, dbl. cbn. ring.
Qed.

(** The flight to (3, 4, 0) at 2 m/s: 2.5 s overall, 2.5 s to go. *)
Lemma fresh_engine_remaining_is_overall_witness :
  let K := Scenario.K in
  let w := Scenario.world 0 Scenario.agent in
  exists this w',
    WaypointCEE_initializeCEE K
      (new_WaypointCEE K (node w) (mkWaypointCommand (DFin 3) (DFin 4) (DFin 0))) w
      = Ok (this, w')
    /\ WaypointCEE_getRemainingTime K this w' = WaypointCEE_getOverallDuration K this
    /\ same (WaypointCEE_getOverallDuration K this) (DFin (5 # 2)).
Proof.
  intros K w.
  destruct (WaypointCEE_initializeCEE K
              (new_WaypointCEE K (node w) (mkWaypointCommand (DFin 3) (DFin 4) (DFin 0))) w)
    as [[this w']|] eqn:Hi; [|vm_compute in Hi; discriminate Hi].
  exists this, w'. split; [reflexivity|].
  split; [exact (proj1 (fresh_engine_remaining_is_overall K w) _ this w' Hi)|].
  vm_compute in Hi. injection Hi as <- <-. vm_compute. reflexivity.
Defined.

(** X10. [HoldPositionCEE::isCommandCompleted()] is decided by the remaining
    time: it raises its error when [getRemainingTime()] is negative, and
    otherwise returns true exactly when the latch is set or the remaining
    time is 0. *)
Theorem HoldPositionCEE_completion_by_remaining_time
    (this : HoldPositionCEE) (w : World) :
  let remaining := HoldPositionCEE_getRemainingTime this w in
  HoldPositionCEE_isCommandCompleted this w
  = if remaining <? DFin 0
    then Fail (cRuntimeError
                 "Unexpected situation: HoldPosition lasted longer than intended.")
    else Ok (commandCompleted (hp_base this) || (remaining ==? DFin 0)).
Proof.
  unfold HoldPositionCEE_getRemainingTime, HoldPositionCEE_isCommandCompleted, dbl.
  cbn [ltb eqb].
  set (till := holdPositionTill this). set (now := simTime w).
  assert (L : Qltb (till - now) 0 = Qltb till now).
  { destruct (Qltb till now) eqn:E; q_reflect; lra. }
  assert (Z : Qeq_bool (till - now) 0 = Qeq_bool now till).
  { destruct (Qeq_bool now till) eqn:E; q_reflect; [lra|].
    intro H. apply E. lra. }
  rewrite L, Z.
  destruct (Qltb till now); [reflexivity|].
  destruct (commandCompleted (hp_base this) || Qeq_bool now till); reflexivity.
Qed.

(** X11. In exact arithmetic, a tick as long as the remaining time brings a
    Takeoff engine exactly to its target altitude, upwards or downwards:
    after [updateState(getRemainingTime())] the command is completed.  The
    altitudes are numbers and the speed is a positive number. *)
Theorem TakeoffCEE_last_tick_completes
    (K : Collaborators) (this : TakeoffCEE) (w : World) (target z s : Q) :
  z1 (tk_base this) = DFin target ->
  n_z (node w) = DFin z ->
  speed (tk_base this) = DFin s ->
  (0 < s)%Q ->
  let r := TakeoffCEE_updateState K this (TakeoffCEE_getRemainingTime this w) w in
  TakeoffCEE_isCommandCompleted (fst r) (snd r) = true.
Proof.
  intros Ht Hz Hs Ps.
  unfold TakeoffCEE_updateState, TakeoffCEE_getRemainingTime, TakeoffCEE_isCommandCompleted.
  cbv zeta. rewrite Ht, Hz, Hs.
  assert (Nz : Qeq_bool s 0 = false) by (apply Qeq_bool_false; lra).
  cbn [sub add opp fabs div mul gtb ltb]. rewrite Nz. cbn [mul].
  destruct (Qltb z target) eqn:L;
    cbn [fst snd node set_node set_battery set_position n_z tk_base z1
         sub add opp fabs ltb mul];
    rewrite ?Ht; cbn [sub add opp fabs ltb mul]; unfold eps; cbn [ltb];
    apply Qltb_lt; q_reflect.
  - rewrite (Qabs_pos (target + - z)) by lra.
    assert (E : (target + - (z + s * ((target + - z) / s)) == 0)%Q) by (field; lra).
    rewrite E. reflexivity.
  - rewrite (Qabs_neg (target + - z)) by lra.
    assert (E : (target + - (z + - (s * (- (target + - z) / s))) == 0)%Q) by (field; lra).
    rewrite E. reflexivity.
Qed.

(** From the ground to 10 m at 2 m/s in one tick of 5 s. *)
Lemma TakeoffCEE_last_tick_completes_witness :
  let K := Scenario.K in
  let w := Scenario.world 0 Scenario.agent in
  let this := fst (TakeoffCEE_initializeCEE K
                     (new_TakeoffCEE K Scenario.agent (mkTakeoffCommand (DFin 10))) w) in
  TakeoffCEE_isCommandCompleted this w = false
  /\ same (TakeoffCEE_getRemainingTime this w) (DFin 5)
  /\ TakeoffCEE_isCommandCompleted
       (fst (TakeoffCEE_updateState K this (TakeoffCEE_getRemainingTime this w) w))
       (snd (TakeoffCEE_updateState K this (TakeoffCEE_getRemainingTime this w) w)) = true.
Proof.
  intros K w this. split; [reflexivity|]. split; [vm_compute; reflexivity|].
  apply (TakeoffCEE_last_tick_completes K this w 10 0 2); try reflexivity.
Defined.

(** *** A leg that takes no time *)

Lemma zero_duration_never_sane (c : double) (q : Q) (bound : double) :
  (q == 0)%Q -> (c >=? DFin 0) && (c / DFin q <? bound) = false.
Proof.
  intro Hq. apply Qeq_bool_iff in Hq. unfold geb.
  destruct c as [p|[]|]; cbn [leb div ltb]; try reflexivity.
  - rewrite Hq. destruct (Qle_bool 0 p) eqn:Lp; [|reflexivity].
    destruct (Qeq_bool p 0) eqn:Ep; [reflexivity|].
    destruct (Qltb p 0) eqn:Np; q_reflect; [lra|].
    cbn [andb]. apply ltb_PInf.
  - assert (N : Qltb q 0 = false) by (q_reflect; lra).
    rewrite N. cbn. apply ltb_PInf.
Qed.

(** X12. A leg of no duration cannot be forecast by Takeoff and
    HoldPosition: for a takeoff to the altitude the engine starts from (at a
    positive speed) and for a hold of 0 seconds, [getProbableConsumption()]
    fails its assertion for all arguments and whatever the consumption model
    answers, because the figure is divided by the duration 0.  (A Waypoint
    engine returns 0 for such a leg instead.) *)
Theorem zero_duration_forecast_fails
    (K : Collaborators) (w : World) (normalized : bool) (fromMethod : Z) :
  (forall (this : TakeoffCEE) (a b : Q),
      z0 (tk_base this) = DFin a -> z1 (tk_base this) = DFin b -> (a == b)%Q ->
      (DFin 0 <? speed (tk_base this)) = true ->
      TakeoffCEE_getProbableConsumption K this w normalized fromMethod
      = Fail (AssertionFailed
                "completeConsumption >= 0 && (completeConsumption / duration) < 1000"))
  /\ (forall (this : HoldPositionCEE) (command : HoldPositionCommand) (q : Q),
        hp_command this = Some command ->
        hpc_getHoldSeconds command = DFin q -> (q == 0)%Q ->
        HoldPositionCEE_getProbableConsumption K this w normalized fromMethod
        = Fail (AssertionFailed
                  "completeConsumption >= 0 && (completeConsumption / duration) < 1000")).
Proof.
  split.
  - intros this a b Ha Hb Hab Hs.
    unfold TakeoffCEE_getProbableConsumption. cbv zeta. rewrite Ha, Hb.
    assert (D : exists q, (fabs (DFin b - DFin a) / speed (tk_base this) = DFin q)
                          /\ (q == 0)%Q).
    { cbn [sub add opp fabs].
      assert (Z : (Qabs (b + - a) == 0)%Q).
      { assert (E : (b + - a == 0)%Q) by lra. rewrite E. reflexivity. }
      destruct (speed (tk_base this)) as [s|[]|]; cbn [ltb negb] in Hs; try discriminate.
      - q_reflect. assert (N : Qeq_bool s 0 = false) by (apply Qeq_bool_false; lra).
        cbn [div]. rewrite N. eexists. split; [reflexivity|]. rewrite Z. field. lra.
      - eexists. split; [reflexivity|]. reflexivity. }
    destruct D as (q & -> & Hq).
    rewrite (zero_duration_never_sane _ q _ Hq). reflexivity.
  - intros this command q Hc Hd Hq.
    unfold HoldPositionCEE_getProbableConsumption. rewrite Hc. cbv zeta. rewrite Hd.
    rewrite (zero_duration_never_sane _ q _ Hq). reflexivity.
Qed.

(** A takeoff to the ground from the ground, and a hold of 0 s. *)
Lemma zero_duration_forecast_fails_witness :
  let K := Scenario.K in
  let w := Scenario.world 0 Scenario.agent in
  let stay := fst (TakeoffCEE_initializeCEE K
                     (new_TakeoffCEE K Scenario.agent (mkTakeoffCommand (DFin 0))) w) in
  let pause := new_HoldPositionCEE K Scenario.agent
                 (mkHoldPositionCommand (DFin 0) (DFin 0) (DFin 0) (DFin 0)) in
  isCommandCompleted K (Takeoff stay) w = Ok true
  /\ getProbableConsumption K (Takeoff stay) w true 0
     = Fail (AssertionFailed
               "completeConsumption >= 0 && (completeConsumption / duration) < 1000")
  /\ getProbableConsumption K (HoldPosition pause) w false 1
     = Fail (AssertionFailed
               "completeConsumption >= 0 && (completeConsumption / duration) < 1000").
Proof.
  intros K w stay pause. split; [reflexivity|]. split.
  - apply (proj1 (zero_duration_forecast_fails K w true 0) stay 0 0);
      reflexivity.
  - apply (proj2 (zero_duration_forecast_fails K w false 1) pause _ 0 eq_refl);
      reflexivity.
Defined.

(** *** Charge: the sign of the consumption *)

Lemma minus_one_times_positive (d : double) :
  (d >? DFin 0) = true -> (DFin (-1 # 1) * d <? DFin 0) = true.
Proof.
  unfold gtb. destruct d as [q|[]|]; cbn; try discriminate; try reflexivity.
  intro H. q_reflect. lra.
Qed.

Lemma no_gain (e : double) : (e - e >? DFin 0) = false.
Proof.
  unfold gtb, sub. destruct e as [q|[]|]; cbn; try reflexivity.
  apply Qltb_ge. lra.
Qed.

(** X13. Whatever [ChargeCEE::getConsumptionTotal()] returns is strictly
    negative: a charge is reported as negative consumption. *)
Theorem ChargeCEE_getConsumptionTotal_negative
    (K : Collaborators) (this : ChargeCEE) (w : World) (v : double) :
  ChargeCEE_getConsumptionTotal K this w = Ok v -> (v <? DFin 0) = true.
Proof.
  unfold ChargeCEE_getConsumptionTotal.
  destruct (isActive K (Charge this)); [|discriminate]. cbv [negb]. cbv zeta.
  destruct (_ >? DFin 0) eqn:G; [|discriminate].
  cbn [ASSERT bind]. intro H. injection H as <-.
  apply minus_one_times_positive. exact G.
Qed.

(** 600 mAh gained: a consumption of -600. *)
Lemma ChargeCEE_getConsumptionTotal_negative_witness :
  let K := Scenario.K in
  let started :=
    ChargeCEE_setNodeParameters K (new_ChargeCEE K Scenario.agent None)
      (Scenario.world 5 Scenario.agent) in
  let later :=
    atTime (set_node (snd started)
              (set_battery Scenario.agent (mkBattery (DFin 2000) (DFin 1600)))) 65 in
  exists v, ChargeCEE_getConsumptionTotal K (fst started) later = Ok v
            /\ (v <? DFin 0) = true /\ same v (DFin (-600 # 1)).
Proof.
  intros K started later.
  destruct (ChargeCEE_getConsumptionTotal K (fst started) later) as [v|] eqn:E;
    [|vm_compute in E; discriminate E].
  exists v. split; [reflexivity|].
  split; [exact (ChargeCEE_getConsumptionTotal_negative K (fst started) later v E)|].
  vm_compute in E. injection E as <-. vm_compute. reflexivity.
Defined.

(** X14. Asked before the battery has gained anything, an active Charge
    engine has no consumption to report: with the stored energy still what
    [setNodeParameters()] recorded, [getConsumptionTotal()] fails its
    assertion. *)
Theorem ChargeCEE_getConsumptionTotal_needs_gain
    (K : Collaborators) (this : ChargeCEE) (w0 w : World) :
  let started := fst (ChargeCEE_setNodeParameters K this w0) in
  isActive K (Charge started) = true ->
  getRemaining (battery (node w)) = getRemaining (battery (node w0)) ->
  ChargeCEE_getConsumptionTotal K started w = Fail (AssertionFailed "difference > 0").
Proof.
  intros started Ha Hb. unfold ChargeCEE_getConsumptionTotal. rewrite Ha.
  cbv [negb]. cbv zeta. rewrite Hb. subst started.
  cbn [ChargeCEE_setNodeParameters fst batteryRemainingExecutionStart].
  cbn [set_n_speed set_n_climbAngle set_n_pitch set_n_yaw battery].
  destruct (toFloat _ >? DFin 0) eqn:G; [|reflexivity].
  apply toFloat_positive in G. rewrite no_gain in G. discriminate G.
Qed.

(** A charge started at time 5, asked at once. *)
Lemma ChargeCEE_getConsumptionTotal_needs_gain_witness :
  let K := Scenario.K in
  let w0 := Scenario.world 5 Scenario.agent in
  let started := fst (ChargeCEE_setNodeParameters K (new_ChargeCEE K Scenario.agent None) w0) in
  isActive K (Charge started) = true
  /\ ChargeCEE_getConsumptionTotal K started w0 = Fail (AssertionFailed "difference > 0").
Proof.
  intros K w0 started. split; [reflexivity|].
  apply (ChargeCEE_getConsumptionTotal_needs_gain K
           (new_ChargeCEE K Scenario.agent None) w0 w0); reflexivity.
Defined.

(** *** Exchange: entry and exit actions *)

(** X15. The entry action of an Exchange engine that has its command never
    fails.  It hands the mission data to the peer exactly once when a
    recharge is requested and the peer is known, and to nobody otherwise;
    the rest of the world (clock, agent, queue, mission id, messages) is
    left as it was. *)
Theorem ExchangeCEE_entry_transfers_once
    (K : Collaborators) (this : ExchangeCEE) (w : World) (command : ExchangeCommand) :
  ex_command this = Some command ->
  ExchangeCEE_getOtherNode this = Ok (exc_getOtherNode command)
  /\ exists w',
      ExchangeCEE_performEntryActions this w = Ok w'
      /\ transferred (node w')
         = transferred (node w)
           ++ (if exc_isRechargeRequested command
               then peers (exc_getOtherNode command) else [])
      /\ sameAgentBody w w'
      /\ rng w' = rng w
      /\ cees (node w') = cees (node w)
      /\ missionId (node w') = missionId (node w)
      /\ sent (node w') = sent (node w).
Proof.
  intro Hc. unfold ExchangeCEE_getOtherNode, ExchangeCEE_performEntryActions.
  rewrite Hc. split; [reflexivity|]. unfold exc_isOtherNodeKnown, sameAgentBody, samePosition.
  destruct (exc_isRechargeRequested command);
    [destruct (exc_getOtherNode command)|];
    eexists; (split; [reflexivity|]); cbn; rewrite ?app_nil_r; repeat split.
Qed.

(** An exchange with peer 3 and a recharge requested. *)
Lemma ExchangeCEE_entry_transfers_once_witness :
  let K := Scenario.K in
  let this := new_ExchangeCEE K Scenario.agent (Some (mkExchangeCommand (Some 3%nat) true)) in
  exists w',
    ExchangeCEE_performEntryActions this (Scenario.world 10 Scenario.agent) = Ok w'
    /\ transferred (node w') = [3%nat].
Proof.
  intros K this.
  destruct (proj2 (ExchangeCEE_entry_transfers_once K this
                     (Scenario.world 10 Scenario.agent) _ eq_refl))
    as (w' & He & Ht & _).
  exists w'. split; [exact He | exact Ht].
Defined.

(** X16. An exit action of an Exchange engine that returns has left the
    clock, the position, orientation and speed of the agent, its battery and
    its transfers as they were.  Without a recharge request it returns the
    world unchanged; with one, the queue is longer by three engines, one
    reservation has been sent and the mission id is -1. *)
Theorem ExchangeCEE_exit_frame
    (K : Collaborators) (this : ExchangeCEE) (w w' : World) (command : ExchangeCommand) :
  ex_command this = Some command ->
  ExchangeCEE_performExitActions K this w = Ok w' ->
  sameAgentBody w w'
  /\ transferred (node w') = transferred (node w)
  /\ (if exc_isRechargeRequested command
      then List.length (cees (node w')) = (3 + List.length (cees (node w)))%nat
           /\ List.length (sent (node w')) = (List.length (sent (node w)) + 1)%nat
           /\ missionId (node w') = (-1)%Z
      else w' = w).
Proof.
  intros Hc. unfold ExchangeCEE_performExitActions. rewrite Hc.
  unfold sameAgentBody, samePosition.
  destruct (exc_isRechargeRequested command).
  - destruct (findNearestCN K _ _ _) as [cn|]; [|discriminate]. cbv zeta.
    unfold WaypointCEE_initializeCEE. cbn [wp_command new_WaypointCEE]. cbv zeta.
    destruct (predictNormConsumptionRandom K _ _ _) as [rate r]. cbn [bind].
    destruct (SimTime_plus _ _) as [arrival|]; [|discriminate]. cbn [bind].
    destruct (WaypointCEE_getProbableConsumption _ _ _ _ _) as [consumption|];
      [|discriminate]. cbn [bind].
    intro H. injection H as <-. cbn. rewrite List.length_app. cbn. repeat split.
  - intro H. injection H as <-. repeat split.
Qed.

(** The exchange of the scenario: one engine was queued, four are. *)
Lemma ExchangeCEE_exit_frame_witness :
  let K := Scenario.K in
  let command := mkExchangeCommand (Some 3%nat) true in
  let this := new_ExchangeCEE K Scenario.agent (Some command) in
  let w := Scenario.world 10
             (set_cees Scenario.agent [Idle (new_IdleCEE K Scenario.agent None)]) in
  exists w',
    ExchangeCEE_performExitActions K this w = Ok w'
    /\ battery (node w') = Scenario.halfCharged
    /\ List.length (cees (node w')) = 4%nat.
Proof.
  intros K command this w.
  destruct (ExchangeCEE_performExitActions K this w) as [w'|] eqn:He;
    [|vm_compute in He; discriminate He].
  destruct (ExchangeCEE_exit_frame K this w w' command eq_refl He)
    as ((_ & _ & _ & _ & _ & _ & Hb) & _ & Hl & _).
  exists w'. split; [reflexivity|]. split; [exact Hb | exact Hl].
Defined.

(** X17. Of the three engines a returning exit action with recharge puts in
    front of the queue, the flight and the charge start where the agent is
    and the idle starts at the station; the charge is bound to the station
    found.  Only the flight has been initialized (its speed is the one the
    agent resolves for its climb angle); charge and idle still carry the
    consumption rate of a fresh engine, and none of the three is latched
    unless a fresh engine is. *)
Theorem ExchangeCEE_exit_origins
    (K : Collaborators) (this : ExchangeCEE) (w w' : World)
    (command : ExchangeCommand) (cn : ChargingNode) :
  ex_command this = Some command ->
  exc_isRechargeRequested command = true ->
  findNearestCN K (n_x (node w)) (n_y (node w)) (n_z (node w)) = Some cn ->
  ExchangeCEE_performExitActions K this w = Ok w' ->
  exists travel charge idle,
    cees (node w') = Waypoint travel :: Charge charge :: Idle idle :: cees (node w)
    /\ startsAt (Waypoint travel) (n_x (node w)) (n_y (node w)) (n_z (node w))
    /\ startsAt (Charge charge) (n_x (node w)) (n_y (node w)) (n_z (node w))
    /\ startsAt (Idle idle) (cn_getX cn) (cn_getY cn) (cn_getZ cn)
    /\ ch_command charge = Some (mkChargeCommand cn)
    /\ speed (wp_base travel) = getSpeed K (node w) (climbAngle (wp_base travel))
    /\ consumptionPerSecond (ch_base charge) = consumptionPerSecond (freshCEE K)
    /\ consumptionPerSecond (id_base idle) = consumptionPerSecond (freshCEE K)
    /\ commandCompleted (wp_base travel) = commandCompleted (freshCEE K)
    /\ commandCompleted (ch_base charge) = commandCompleted (freshCEE K)
    /\ commandCompleted (id_base idle) = commandCompleted (freshCEE K).
Proof.
  intros Hc Hr Hn. unfold ExchangeCEE_performExitActions. rewrite Hc, Hr, Hn. cbv zeta.
  unfold WaypointCEE_initializeCEE. cbn [wp_command new_WaypointCEE]. cbv zeta.
  destruct (predictNormConsumptionRandom K _ _ _) as [rate r]. cbn [bind].
  destruct (SimTime_plus _ _) as [arrival|]; [|discriminate]. cbn [bind].
  destruct (WaypointCEE_getProbableConsumption _ _ _ _ _) as [consumption|];
    [|discriminate]. cbn [bind].
  intro H. injection H as <-.
  eexists. eexists. eexists. split; [reflexivity|].
  unfold startsAt. cbn. repeat split.
Qed.

(** The exchange of the scenario: the agent is at the origin, the station at
    (3, 4, 0). *)
Lemma ExchangeCEE_exit_origins_witness :
  let K := Scenario.K in
  let command := mkExchangeCommand (Some 3%nat) true in
  let this := new_ExchangeCEE K Scenario.agent (Some command) in
  let w := Scenario.world 10 Scenario.agent in
  exists w' travel charge idle,
    ExchangeCEE_performExitActions K this w = Ok w'
    /\ cees (node w') = [Waypoint travel; Charge charge; Idle idle]
    /\ startsAt (Charge charge) (DFin 0) (DFin 0) (DFin 0)
    /\ startsAt (Idle idle) (DFin 3) (DFin 4) (DFin 0).
Proof.
  intros K command this w.
  destruct (ExchangeCEE_performExitActions K this w) as [w'|] eqn:He;
    [|vm_compute in He; discriminate He].
  destruct (ExchangeCEE_exit_origins K this w w' command Scenario.station
              eq_refl eq_refl eq_refl He)
    as (travel & charge & idle & Hq & _ & Hcs & His & _).
  exists w', travel, charge, idle.
  split; [reflexivity|]. split; [exact Hq|]. split; [exact Hcs | exact His].
Defined.

(** *** Names of the engines *)

(** X18. The name [getCeeTypeString()] gives tells the engines apart: two
    engines have the same name exactly when they are of the same type. *)
Theorem getCeeTypeString_identifies_type (e1 e2 : CEE) :
  getCeeTypeString e1 = getCeeTypeString e2 <-> getType e1 = getType e2.
Proof.
  destruct e1, e2; cbn; split; intro H; try reflexivity; discriminate H.
Qed.

(** *** Exchange: the forecast *)

Lemma div_by_one_below (c bound : double) :
  (c / ofZ 1 <? bound) = (c <? bound).
Proof.
  unfold ofZ. destruct c as [p|[]|], bound as [b|[]|]; cbn; try reflexivity.
  destruct (Qltb p b) eqn:E; q_reflect.
  - assert (H : (p / inject_Z 1 == p)%Q) by (unfold inject_Z; field).
    change (p / inject_Z 1 < b)%Q. rewrite H. exact E.
  - assert (H : (p / inject_Z 1 == p)%Q) by (unfold inject_Z; field).
    change (b <= p / inject_Z 1)%Q. rewrite H. exact E.
Qed.

(** X19. [ExchangeCEE::getProbableConsumption()] ignores both of its
    arguments: it returns the hover consumption of one second under method 1
    when that figure lies in [0, 1000), and fails its assertion otherwise. *)
Theorem ExchangeCEE_getProbableConsumption_spec
    (K : Collaborators) (this : ExchangeCEE) (w : World)
    (normalized : bool) (fromMethod : Z) :
  let c := getHoverConsumption K (node w) (ofZ 1) 1 in
  ExchangeCEE_getProbableConsumption K this w normalized fromMethod
  = if (DFin 0 <=? c) && (c <? DFin 1000) then Ok c
    else Fail (AssertionFailed
                 "completeConsumption >= 0 && (completeConsumption / duration) < 1000").
Proof.
  intro c. unfold ExchangeCEE_getProbableConsumption. cbv zeta. fold c.
  rewrite div_by_one_below. unfold geb.
  destruct ((DFin 0 <=? c) && (c <? DFin 1000)); reflexivity.
Qed.

(** *** Waypoint: durations *)

(** X20. The quantile duration divides by the pessimistic speed as stored
    in a [float].  When that stored speed is positive and not above the
    speed of the engine, the quantile duration is not below the overall
    duration (the length of the leg being a non-negative number). *)
Theorem WaypointCEE_quantile_not_shorter
    (K : Collaborators) (getSpeedAt : UAVNode -> double -> Z -> double)
    (this : WaypointCEE) (w : World) (len s ps : Q) :
  legDistance K this = DFin len -> (0 <= len)%Q ->
  speed (wp_base this) = DFin s ->
  toFloat (getSpeedAt (node w) (climbAngle (wp_base this)) 2%Z) = DFin ps ->
  (0 < ps <= s)%Q ->
  (WaypointCEE_getOverallDuration K this
     <=? WaypointCEE_getOverallDurationQuantile K getSpeedAt this w) = true.
Proof.
  unfold legDistance, WaypointCEE_getOverallDuration,
    WaypointCEE_getOverallDurationQuantile.
  cbv zeta. intros -> Hl -> -> [Hp Hs].
  assert (Ns : Qeq_bool s 0 = false) by (apply Qeq_bool_false; lra).
  assert (Np : Qeq_bool ps 0 = false) by (apply Qeq_bool_false; lra).
  assert (G : forall d : Q, (0 <= d)%Q -> (DFin d / DFin s <=? DFin d / DFin ps) = true).
  { intros d Hd. cbn [div]. rewrite Ns, Np. cbn [leb]. apply Qle_bool_iff.
    apply Qle_shift_div_l; [lra|].
    assert (E : (d / s * ps == d * (ps / s))%Q) by (field; lra).
    rewrite E.
    assert (R : (ps / s <= 1)%Q) by (apply Qle_shift_div_r; lra).
    assert (R0 : (0 <= ps / s)%Q) by (apply Qle_shift_div_l; lra).
    nra. }
  destruct (DFin len <? eps); apply G; [lra | exact Hl].
Qed.

(** The flight to (3, 4, 0): 2 m/s expected, 1 m/s at the pessimistic
    quantile. *)
Lemma WaypointCEE_quantile_not_shorter_witness :
  let K := Scenario.K in
  let w := Scenario.world 0 Scenario.agent in
  let slow := fun (_ : UAVNode) (_ : double) (_ : Z) => DFin 1 in
  exists this w',
    WaypointCEE_initializeCEE K
      (new_WaypointCEE K Scenario.agent (mkWaypointCommand (DFin 3) (DFin 4) (DFin 0))) w
      = Ok (this, w')
    /\ (WaypointCEE_getOverallDuration K this
          <=? WaypointCEE_getOverallDurationQuantile K slow this w') = true.
Proof.
  intros K w slow.
  destruct (WaypointCEE_initializeCEE K
              (new_WaypointCEE K Scenario.agent (mkWaypointCommand (DFin 3) (DFin 4) (DFin 0))) w)
    as [[this w']|] eqn:Hi; [|vm_compute in Hi; discriminate Hi].
  exists this, w'. split; [reflexivity|].
  vm_compute in Hi. injection Hi as <- <-.
  apply (WaypointCEE_quantile_not_shorter K slow _ _ (5000000000000 # 1000000000000) 2 1).
  - reflexivity.
  - vm_compute. discriminate.
  - reflexivity.
  - vm_compute. reflexivity.
  - split; [reflexivity | vm_compute; discriminate].
Defined.

(** The hypothesis is on the stored speed: 0.1 m/s becomes
    0.100000001490116... in a [float], so with both speeds 0.1 m/s the
    quantile duration of a leg of 5 m falls below the overall duration
    of 50 s. *)
Example WaypointCEE_quantile_shorter_by_rounding :
  let K := Scenario.K in
  let tenth := fun (_ : UAVNode) (_ : double) (_ : Z) => DFin (1 # 10) in
  let flight := new_WaypointCEE K Scenario.agent (mkWaypointCommand (DFin 3) (DFin 4) (DFin 0)) in
  let this := mkWaypointCEE (set_speed (wp_base flight) (DFin (1 # 10))) (wp_command flight) in
  let w := Scenario.world 0 Scenario.agent in
  same (WaypointCEE_getOverallDuration K this) (DFin 50)
  /\ (WaypointCEE_getOverallDurationQuantile K tenth this w <? DFin 50) = true
  /\ (WaypointCEE_getOverallDuration K this
        <=? WaypointCEE_getOverallDurationQuantile K tenth this w) = false.
Proof.
  intros K tenth flight this w.
  split; [vm_compute; reflexivity|]. split; vm_compute; reflexivity.
Qed.

(** X21. A leg shorter than 1e-10 takes no time at any speed that is a
    number other than 0: [getOverallDuration()] is then 0, in agreement with
    the consumption 0 that [getProbableConsumption()] reports for it. *)
Theorem WaypointCEE_short_leg_takes_no_time
    (K : Collaborators) (this : WaypointCEE) (s : Q) :
  (legDistance K this <? eps) = true ->
  speed (wp_base this) = DFin s -> ~ (s == 0)%Q ->
  same (WaypointCEE_getOverallDuration K this) (DFin 0).
Proof.
  unfold legDistance, WaypointCEE_getOverallDuration. cbv zeta.
  intros -> -> Hs. apply Qeq_bool_false in Hs. cbn [div]. rewrite Hs.
  cbn [same]. apply Qeq_bool_false in Hs. field. exact Hs.
Qed.

(** A flight from the origin to the origin. *)
Lemma WaypointCEE_short_leg_takes_no_time_witness :
  let K := Scenario.K in
  let w := Scenario.world 0 Scenario.agent in
  exists this w',
    WaypointCEE_initializeCEE K
      (new_WaypointCEE K Scenario.agent (mkWaypointCommand (DFin 0) (DFin 0) (DFin 0))) w
      = Ok (this, w')
    /\ same (WaypointCEE_getOverallDuration K this) (DFin 0).
Proof.
  intros K w.
  destruct (WaypointCEE_initializeCEE K
              (new_WaypointCEE K Scenario.agent (mkWaypointCommand (DFin 0) (DFin 0) (DFin 0))) w)
    as [[this w']|] eqn:Hi; [|vm_compute in Hi; discriminate Hi].
  exists this, w'. split; [reflexivity|].
  vm_compute in Hi. injection Hi as <- <-.
  apply (WaypointCEE_short_leg_takes_no_time K _ 2); try reflexivity.
  vm_compute. discriminate.
Defined.

(** *** Arrival *)

Lemma at_spot (a : Q) : (Qabs (a + - a) == 0)%Q.
Proof.
  assert (E : (a + - a == 0)%Q) by ring. rewrite E. reflexivity.
Qed.

(** X22. An agent that stands exactly on the target, the coordinates being
    numbers, has completed a Waypoint command, and an agent at the target
    altitude a Takeoff command, whether or not the latch is set. *)
Theorem at_target_is_completed (w : World) :
  (forall (this : WaypointCEE) (a b c : Q),
      x1 (wp_base this) = DFin a -> y1 (wp_base this) = DFin b ->
      z1 (wp_base this) = DFin c ->
      n_x (node w) = DFin a -> n_y (node w) = DFin b -> n_z (node w) = DFin c ->
      WaypointCEE_isCommandCompleted this w = true)
  /\ (forall (this : TakeoffCEE) (c : Q),
        z1 (tk_base this) = DFin c -> n_z (node w) = DFin c ->
        TakeoffCEE_isCommandCompleted this w = true).
Proof.
  split.
  - intros this a b c Ha Hb Hc Na Nb Nc.
    unfold WaypointCEE_isCommandCompleted. cbv zeta.
    rewrite Ha, Hb, Hc, Na, Nb, Nc. cbn [sub add opp fabs ltb]. unfold eps. cbn [ltb].
    apply orb_true_iff. right. apply Qltb_lt.
    rewrite !at_spot. reflexivity.
  - intros this c Hc Nc. unfold TakeoffCEE_isCommandCompleted. cbv zeta.
    rewrite Hc, Nc. cbn [sub add opp fabs ltb]. unfold eps. cbn [ltb].
    apply Qltb_lt. rewrite at_spot. reflexivity.
Qed.

(** An agent that has been set down on (3, 4, 0). *)
Lemma at_target_is_completed_witness :
  let K := Scenario.K in
  let this := new_WaypointCEE K Scenario.agent (mkWaypointCommand (DFin 3) (DFin 4) (DFin 0)) in
  let there := Scenario.world 7 (set_position Scenario.agent (DFin 3) (DFin 4) (DFin 0)) in
  WaypointCEE_isCommandCompleted this (Scenario.world 0 Scenario.agent) = false
  /\ WaypointCEE_isCommandCompleted this there = true.
Proof.
  intros K this there. split; [reflexivity|].
  apply (proj1 (at_target_is_completed there) this 3 4 0); reflexivity.
Defined.

(** *** Ticks and completion *)

Lemma ChargeCEE_updateStates_nothing
    (K : Collaborators) (steps : list double) (this : ChargeCEE) (w : World) :
  updateStates K (Charge this) steps w = (Charge this, w).
Proof.
  induction steps as [|stepSize rest IH]; [reflexivity|].
  cbn [updateStates]. cbv zeta. exact IH.
Qed.

Lemma updateStates_engine_and_clock
    (K : Collaborators) (steps : list double) (e : CEE) (w : World) :
  fst (updateStates K e steps w) = e
  /\ simTime (snd (updateStates K e steps w)) = simTime w.
Proof.
  revert w. induction steps as [|stepSize rest IH]; intro w; [split; reflexivity|].
  cbn [updateStates]. cbv zeta.
  destruct (updateState_once K e stepSize w) as [He (Hc & _)].
  rewrite He. destruct (IH (snd (updateState K e stepSize w))) as [He' Hc'].
  split; [exact He' | congruence].
Qed.

(** X23. The ticks of a HoldPosition, Charge, Exchange or Idle engine never
    complete its command: after any run of [updateState] calls
    [isCommandCompleted()] answers as it did before.  These engines end only
    through the clock, the battery being filled from outside, or the
    latch. *)
Theorem ticks_do_not_complete
    (K : Collaborators) (steps : list double) (e : CEE) (w : World) :
  getType e <> WAYPOINT -> getType e <> TAKEOFF ->
  let r := updateStates K e steps w in
  isCommandCompleted K (fst r) (snd r) = isCommandCompleted K e w.
Proof.
  intros Hw Ht r. subst r.
  destruct (updateStates_engine_and_clock K steps e w) as [He Hc].
  rewrite He.
  destruct e as [e|e|e|e|e|e]; try contradiction; cbn [isCommandCompleted].
  - unfold HoldPositionCEE_isCommandCompleted. rewrite Hc. reflexivity.
  - rewrite ChargeCEE_updateStates_nothing. reflexivity.
  - reflexivity.
  - reflexivity.
Qed.

(** Holding for 30 s: five ticks of a second each, the clock still at 10. *)
Lemma ticks_do_not_complete_witness :
  let K := Scenario.K in
  let w := Scenario.world 10 Scenario.agent in
  let r := updateStates K (HoldPosition Scenario.holding)
             [DFin 1; DFin 1; DFin 1; DFin 1; DFin 1] w in
  isCommandCompleted K (fst r) (snd r) = Ok false
  /\ same (getRemaining (battery (node (snd r)))) (DFin 980).
Proof.
  intros K w r. split.
  - subst r. rewrite (ticks_do_not_complete K _ (HoldPosition Scenario.holding) w);
      [reflexivity | discriminate | discriminate].
  - vm_compute. reflexivity.
Defined.
